(** * Shallow embedding of the dexcrow escrow system (Python)

    Sources: [src/escrow-system/shared/utils.py], [shared/models.py],
    [protocols/escrow_protocol.py], [agents/arbiter_agent.py],
    [agents/oracle_agent.py].

    Conventions.
    - Python [str] values are modelled as [string] (ASCII text).
    - Python [float] values are IEEE binary64, modelled with the Standard
      Library's [SpecFloat] at precision 53 and maximal exponent 1024.
    - Python dicts are association lists in insertion order; JSON-like
      payloads are the inductive [value].
    - A Python exception is the left injection of [exn + A]. *)

From Stdlib Require Import ZArith List String Ascii Bool Lia QArith Qabs.
From Stdlib Require Import Floats.SpecFloat Numbers.DecimalString.
From Stdlib Require Numbers.DecimalN.
Import ListNotations.
Set Warnings "-register-all".

Open Scope Z_scope.

(* ------------------------------------------------------------------ *)
(** ** Python runtime fragment *)
Module Py.

(** Exceptions that the modelled code can raise. All of them are
    subclasses of Python's [Exception]. *)
Inductive exn :=
| ValueError (msg : string)
| TypeError (msg : string)
| KeyError (key : string)
| IndexError (msg : string)
| JSONDecodeError (msg : string)
| RequestException (msg : string)
| HTTPError (code : Z).

Definition Exc (A : Type) : Type := (exn + A)%type.

Definition ret {A} (a : A) : Exc A := inr a.
Definition raise {A} (e : exn) : Exc A := inl e.
Definition bind {A B} (m : Exc A) (k : A -> Exc B) : Exc B :=
  match m with inl e => inl e | inr a => k a end.

Notation "x <- m ;; k" := (bind m (fun x => k))
  (at level 61, m at next level, right associativity).

(** [try: m except <exceptions selected by catches>: handler] *)
Definition try_except {A} (m : Exc A) (catches : exn -> bool)
  (handler : exn -> Exc A) : Exc A :=
  match m with
  | inl e => if catches e then handler e else inl e
  | inr a => inr a
  end.

(** [except Exception]: every modelled exception. *)
Definition is_Exception (e : exn) : bool := true.

Definition is_ValueError_or_TypeError (e : exn) : bool :=
  match e with ValueError _ | TypeError _ => true | _ => false end.

(** JSON-like Python values. *)
Inductive value :=
| VNone
| VBool (b : bool)
| VInt (z : Z)
| VFloat (f : spec_float)
| VStr (s : string)
| VList (l : list value)
| VDict (d : list (string * value)).

Definition dict := list (string * value).

(** [d.get(k, default)] *)
Fixpoint dict_get (d : dict) (k : string) (default : value) : value :=
  match d with
  | [] => default
  | (k', v) :: r => if String.eqb k k' then v else dict_get r k default
  end.

(** [k in d] *)
Fixpoint dict_mem (k : string) (d : dict) : bool :=
  match d with
  | [] => false
  | (k', _) :: r => String.eqb k k' || dict_mem k r
  end.

(** [v[k]] for a string key. *)
Definition getitem_key (v : value) (k : string) : Exc value :=
  match v with
  | VDict d => if dict_mem k d then ret (dict_get d k VNone) else raise (KeyError k)
  | _ => raise (TypeError "object is not subscriptable by str")
  end.

(** [v[i]] for a non-negative integer index. *)
Definition getitem_index (v : value) (i : nat) : Exc value :=
  match v with
  | VList l =>
      match nth_error l i with
      | Some x => ret x
      | None => raise (IndexError "list index out of range")
      end
  | VDict _ => raise (KeyError "0")
  | _ => raise (TypeError "object is not subscriptable")
  end.

(** [d[k] = v]: an existing key keeps its position, a new key is appended. *)
Fixpoint dict_set (d : dict) (k : string) (v : value) : dict :=
  match d with
  | [] => [(k, v)]
  | (k', v') :: r => if String.eqb k k' then (k', v) :: r else (k', v') :: dict_set r k v
  end.

(** [len(v)] *)
Definition py_len (v : value) : Exc nat :=
  match v with
  | VList l => ret (List.length l)
  | VStr s => ret (String.length s)
  | VDict d => ret (List.length d)
  | _ => raise (TypeError "object has no len()")
  end.

(** Character classes of CPython's parsers ([Py_ISSPACE], digits). *)
Definition is_space (c : ascii) : bool :=
  let n := nat_of_ascii c in ((9 <=? n) && (n <=? 13))%nat || (n =? 32)%nat.

Definition is_digit (c : ascii) : bool :=
  let n := nat_of_ascii c in ((48 <=? n) && (n <=? 57))%nat.

Definition digit_value (c : ascii) : Z := Z.of_nat (nat_of_ascii c) - 48.

Definition hex_digit_value (c : ascii) : option Z :=
  let n := Z.of_nat (nat_of_ascii c) in
  if (48 <=? n) && (n <=? 57) then Some (n - 48)
  else if (97 <=? n) && (n <=? 102) then Some (n - 87)
  else if (65 <=? n) && (n <=? 70) then Some (n - 55)
  else None.

Fixpoint drop_spaces (cs : list ascii) : list ascii :=
  match cs with
  | c :: r => if is_space c then drop_spaces r else cs
  | [] => []
  end.

(** Leading and trailing whitespace removed. *)
Definition strip (cs : list ascii) : list ascii :=
  rev (drop_spaces (rev (drop_spaces cs))).

(** [s.startswith(p)] *)
Definition startswith (s p : string) : bool := String.prefix p s.

(** [s[n:]] *)
Definition slice_from (n : nat) (s : string) : string :=
  substring n (String.length s - n) s.

(** [not s] for a string. *)
Definition str_empty (s : string) : bool := String.eqb s "".

(** ** [int(s, 16)]

    CPython's [PyLong_FromString] with base 16 on an ASCII string: leading
    whitespace, an optional sign, an optional [0x]/[0X] prefix followed by at
    most one underscore, then hexadecimal digits where single underscores may
    separate digits, then trailing whitespace. [None] is the [ValueError]. *)
Fixpoint scan_hex (cs : list ascii) (prev_us : bool) (acc : Z) (nd : nat)
  : option (Z * nat * list ascii) :=
  match cs with
  | c :: r =>
      if Ascii.eqb c "_" then
        if prev_us then None else scan_hex r true acc nd
      else
        match hex_digit_value c with
        | Some d => scan_hex r false (acc * 16 + d) (S nd)
        | None => if prev_us then None else Some (acc, nd, cs)
        end
  | [] => if prev_us then None else Some (acc, nd, [])
  end.

Definition split_sign (cs : list ascii) : bool * list ascii :=
  match cs with
  | "+"%char :: r => (false, r)
  | "-"%char :: r => (true, r)
  | _ => (false, cs)
  end.

Definition skip_hex_prefix (cs : list ascii) : list ascii :=
  match cs with
  | "0"%char :: x :: r =>
      if Ascii.eqb x "x" || Ascii.eqb x "X" then
        match r with "_"%char :: r' => r' | _ => r end
      else cs
  | _ => cs
  end.

Definition int_base16 (s : string) : option Z :=
  let '(neg, cs) := split_sign (drop_spaces (list_ascii_of_string s)) in
  match skip_hex_prefix cs with
  | "_"%char :: _ => None
  | cs' =>
      match scan_hex cs' false 0 0 with
      | Some (v, S _, rest) =>
          match drop_spaces rest with
          | [] => Some (if neg then - v else v)
          | _ => None
          end
      | _ => None
      end
  end.

End Py.

(* ------------------------------------------------------------------ *)
(** ** Python [float]: IEEE binary64 *)
Module F64.
Import Py.

Definition prec : Z := 53.
Definition emax : Z := 1024.
Definition float := spec_float.

Definition add : float -> float -> float := SFadd prec emax.
Definition sub : float -> float -> float := SFsub prec emax.
Definition mul : float -> float -> float := SFmul prec emax.
Definition div : float -> float -> float := SFdiv prec emax.
Definition leb : float -> float -> bool := SFleb.

(** The double nearest to [(-1)^neg * d * 10^k] (ties to even), with
    overflow to an infinity and underflow to a signed zero: the value of a
    decimal literal, and what CPython's correctly rounded [strtod] returns. *)
Definition of_decimal (neg : bool) (d : Z) (k : Z) : float :=
  if d =? 0 then S754_zero neg
  else if 0 <=? k then
    binary_normalize prec emax (if neg then - (d * 10 ^ k) else d * 10 ^ k) 0 neg
  else
    let '(q, e, l) := SFdiv_core_binary prec emax d 0 (10 ^ (- k)) 0 in
    binary_round_aux prec emax neg q e l.

(** Decimal digits: value, count, rest. *)
Fixpoint scan_digits (cs : list ascii) (acc : Z) (n : nat) : Z * nat * list ascii :=
  match cs with
  | c :: r => if is_digit c then scan_digits r (acc * 10 + digit_value c) (S n)
              else (acc, n, cs)
  | [] => (acc, n, [])
  end.

Definition lower (c : ascii) : ascii :=
  let n := nat_of_ascii c in
  if ((65 <=? n) && (n <=? 90))%nat then ascii_of_nat (n + 32) else c.

Definition chars_eqb (cs : list ascii) (s : string) : bool :=
  String.eqb (string_of_list_ascii cs) s.

(** A decimal number [digits [. digits] [(e|E) [sign] digits]] with at least
    one mantissa digit, as [(mantissa, exponent)]; the whole input must be
    consumed. *)
Definition parse_decimal (cs : list ascii) : option (Z * Z) :=
  let '(ip, ni, r1) := scan_digits cs 0 0 in
  let '(fp, nf, r2) :=
    match r1 with
    | "."%char :: r' => scan_digits r' ip 0
    | _ => (ip, O, r1)
    end in
  if (ni + nf =? 0)%nat then None
  else
    match r2 with
    | [] => Some (fp, - Z.of_nat nf)
    | c :: r3 =>
        if Ascii.eqb c "e" || Ascii.eqb c "E" then
          let '(eneg, r4) := split_sign r3 in
          let '(ev, ne, r5) := scan_digits r4 0 0 in
          match ne, r5 with
          | S _, [] => Some (fp, (if eneg then - ev else ev) - Z.of_nat nf)
          | _, _ => None
          end
        else None
    end.

(** [_PyOS_ascii_strtod] over the whole (stripped) string. *)
Definition strtod (cs : list ascii) : option float :=
  let '(neg, r) := split_sign cs in
  let w := map lower r in
  if chars_eqb w "inf" || chars_eqb w "infinity" then Some (S754_infinity neg)
  else if chars_eqb w "nan" then Some S754_nan
  else
    match parse_decimal r with
    | Some (d, k) => Some (of_decimal neg d k)
    | None => None
    end.

(** [_Py_string_to_number_with_underscores]: an underscore must sit between
    two digits; the underscores are removed. *)
Fixpoint remove_underscores (prev : ascii) (cs : list ascii) : option (list ascii) :=
  match cs with
  | [] => if Ascii.eqb prev "_" then None else Some []
  | c :: r =>
      if Ascii.eqb c "_" then
        if is_digit prev then remove_underscores c r else None
      else if Ascii.eqb prev "_" && negb (is_digit c) then None
      else option_map (cons c) (remove_underscores c r)
  end.

(** [float(s)] for a [str] argument ([PyFloat_FromString]); [None] is the
    [ValueError]. *)
Definition of_string (s : string) : option float :=
  match strip (list_ascii_of_string s) with
  | [] => None
  | cs =>
      match remove_underscores "000"%char cs with
      | Some cs' => strtod cs'
      | None => None
      end
  end.

Fixpoint repeat_char (c : ascii) (n : nat) : string :=
  match n with O => EmptyString | S k => String c (repeat_char c k) end.

Definition digits_of_Z (z : Z) : string :=
  NilEmpty.string_of_uint (N.to_uint (Z.to_N z)).

Definition pad_left (n : nat) (s : string) : string :=
  repeat_char "0" (n - String.length s) ++ s.

(** [num / den] rounded to the nearest integer, ties to even. *)
Definition div_round_even (num den : Z) : Z :=
  let '(q, r) := Z.div_eucl num den in
  match Z.compare (2 * r) den with
  | Lt => q
  | Gt => q + 1
  | Eq => if Z.even q then q else q + 1
  end.

(** [m * 2^e * 10^p], rounded to an integer. *)
Definition scaled (m : positive) (e : Z) (p : nat) : Z :=
  if 0 <=? e then Zpos m * 2 ^ e * 10 ^ Z.of_nat p
  else div_round_even (Zpos m * 10 ^ Z.of_nat p) (2 ^ (- e)).

Definition fixed_digits (p : nat) (n : Z) : string :=
  digits_of_Z (n / 10 ^ Z.of_nat p) ++
  (match p with
   | O => ""
   | S _ => "." ++ pad_left p (digits_of_Z (n mod 10 ^ Z.of_nat p))
   end).

(** [f"{x:.{p}f}"]: the exact binary value rounded half-even to [p]
    fractional digits (CPython's [PyOS_double_to_string] with format ['f']). *)
Definition format_fixed (p : nat) (x : float) : string :=
  match x with
  | S754_nan => "nan"
  | S754_infinity s => if s then "-inf" else "inf"
  | S754_zero s => (if s then "-" else "") ++ fixed_digits p 0
  | S754_finite s m e => (if s then "-" else "") ++ fixed_digits p (scaled m e p)
  end.

End F64.

(* ------------------------------------------------------------------ *)
(** ** [shared/models.py] *)
Module Models.

(** [EscrowState] (lines 10-16): the contract states. *)
Inductive EscrowState :=
| AWAITING_DEPOSIT
| AWAITING_FULFILLMENT
| DISPUTE_RAISED
| COMPLETED
| CANCELED.

Definition EscrowState_value (s : EscrowState) : Z :=
  match s with
  | AWAITING_DEPOSIT => 0 | AWAITING_FULFILLMENT => 1 | DISPUTE_RAISED => 2
  | COMPLETED => 3 | CANCELED => 4
  end.

Definition EscrowState_eqb (a b : EscrowState) : bool :=
  EscrowState_value a =? EscrowState_value b.

Inductive TradeType := CRYPTO | FIAT_P2P | CROSS_CHAIN.
Inductive AssetType := ETH | ERC20 | ERC721 | ERC1155 | BTC | FIAT.
Inductive ChainType := ETHEREUM | BASE | CELO | OPTIMISM | BSC | BITCOIN.

Record Asset := mkAsset {
  asset_type : AssetType;
  address : option string;
  amount : string;
  chain : ChainType;
  symbol : option string;
  decimals : Z;
  name : option string }.

Record EscrowTerms := mkEscrowTerms {
  description : string;
  deadline : Z;
  auto_release_hours : option Z;
  dispute_window_hours : Z;
  arbiter_fee_percentage : F64.float;
  platform_fee_percentage : F64.float }.

Record EscrowData := mkEscrowData {
  escrow_id : string;
  contract_address : option string;
  status : EscrowState;
  trade_type : TradeType;
  buyer_address : string;
  seller_address : string;
  arbiter_address : string;
  creator_agent : string;
  asset_a : option Asset;
  asset_b : option Asset;
  terms : option EscrowTerms;
  created_at : Z;
  updated_at : Z;
  deposit_tx_hash : option string;
  fulfillment_tx_hash : option string;
  release_tx_hash : option string;
  refund_tx_hash : option string;
  dispute_id : option string;
  dispute_reason : option string;
  dispute_evidence : list Py.dict;
  frontend_callback_url : option string;
  frontend_session_id : option string;
  metadata : Py.dict }.

End Models.

(* ------------------------------------------------------------------ *)
(** ** [shared/utils.py]: address and transaction-hash validation *)
Module Utils.
Import Py.

(** [validate_address] (utils.py, lines 30-43). *)
Definition validate_address (address : string) : bool :=
  if str_empty address then false
  else if startswith address "0x" && (String.length address =? 42)%nat then
    match int_base16 (slice_from 2 address) with
    | Some _ => true
    | None => false
    end
  else false.

(** [validate_transaction_hash] (utils.py, lines 248-261). *)
Definition validate_transaction_hash (tx_hash : string) : bool :=
  if str_empty tx_hash then false
  else if startswith tx_hash "0x" && (String.length tx_hash =? 66)%nat then
    match int_base16 (slice_from 2 tx_hash) with
    | Some _ => true
    | None => false
    end
  else false.

(** [float(amount)] raising [ValueError] on a non-numeric string. *)
Definition float_of_str (s : string) : Exc F64.float :=
  match F64.of_string s with
  | Some x => ret x
  | None => raise (ValueError "could not convert string to float")
  end.

(** [f"{x:.{decimals}f}"]: a negative precision makes the format
    specification invalid, a [ValueError]. *)
Definition format_f (x : F64.float) (decimals : Z) : Exc string :=
  if decimals <? 0 then raise (ValueError "Format specifier missing precision")
  else ret (F64.format_fixed (Z.to_nat decimals) x).

(** [format_amount] (lines 79-85). *)
Definition format_amount (amount : string) (decimals : Z) : Exc string :=
  try_except
    (amount_float <- float_of_str amount ;;
     format_f amount_float decimals)
    is_ValueError_or_TypeError
    (fun _ => ret "0.0"%string).

(** [format_amount(str(x))] on a float [x], with the default 18 decimals.
    [str] of a float is its round-tripping repr ([float(repr(x)) == x] for
    every double, including inf, -inf, nan and -0.0), so the float parsed
    back by [format_amount] is [x] itself. *)
Definition format_amount_str (x : F64.float) : Exc string :=
  try_except (format_f x 18) is_ValueError_or_TypeError (fun _ => ret "0.0"%string).

Definition hundred : F64.float := F64.of_decimal false 100 0.

(** Default fee percentages 0.5 and 1.0. *)
Definition default_platform_fee : F64.float := F64.of_decimal false 5 (-1).
Definition default_arbiter_fee : F64.float := F64.of_decimal false 10 (-1).

Definition zero_fees : dict :=
  [("total", VStr "0.0"); ("platform_fee", VStr "0.0");
   ("arbiter_fee", VStr "0.0"); ("net_amount", VStr "0.0")]%string.

(** [calculate_fees] (lines 94-114). *)
Definition calculate_fees (amount : string)
  (platform_fee_percentage arbiter_fee_percentage : F64.float) : Exc dict :=
  try_except
    (amount_float <- float_of_str amount ;;
     let platform_fee := F64.mul amount_float (F64.div platform_fee_percentage hundred) in
     let arbiter_fee := F64.mul amount_float (F64.div arbiter_fee_percentage hundred) in
     let net_amount := F64.sub (F64.sub amount_float platform_fee) arbiter_fee in
     total <- format_amount_str amount_float ;;
     pf <- format_amount_str platform_fee ;;
     af <- format_amount_str arbiter_fee ;;
     net <- format_amount_str net_amount ;;
     ret [("total", VStr total); ("platform_fee", VStr pf);
          ("arbiter_fee", VStr af); ("net_amount", VStr net)]%string)
    is_ValueError_or_TypeError
    (fun _ => ret zero_fees).

(** [validate_escrow_data] (lines 45-77); [now] is [int(time.time())].
    A dataclass instance is always truthy, so [not escrow_data.asset_a]
    holds exactly for [None]. *)
Definition validate_escrow_data (now : Z) (escrow_data : Models.EscrowData) : list string :=
  let errors := [] in
  let errors := if negb (validate_address (Models.buyer_address escrow_data))
                then errors ++ ["Invalid buyer address"%string] else errors in
  let errors := if negb (validate_address (Models.seller_address escrow_data))
                then errors ++ ["Invalid seller address"%string] else errors in
  let errors := if negb (validate_address (Models.arbiter_address escrow_data))
                then errors ++ ["Invalid arbiter address"%string] else errors in
  let errors := if str_empty (Models.escrow_id escrow_data)
                   || (String.length (Models.escrow_id escrow_data) <? 10)%nat
                then errors ++ ["Invalid escrow ID"%string] else errors in
  let errors := match Models.asset_a escrow_data with
                | None => errors ++ ["Asset A is required"%string]
                | Some a => if str_empty (Models.amount a)
                            then errors ++ ["Asset A is required"%string] else errors
                end in
  let errors := match Models.asset_b escrow_data with
                | None => errors ++ ["Asset B is required"%string]
                | Some a => if str_empty (Models.amount a)
                            then errors ++ ["Asset B is required"%string] else errors
                end in
  let errors := match Models.terms escrow_data with
                | None => errors ++ ["Escrow description is required"%string]
                | Some t => if str_empty (Models.description t)
                            then errors ++ ["Escrow description is required"%string] else errors
                end in
  let errors := match Models.terms escrow_data with
                | Some t => if Models.deadline t <=? now
                            then errors ++ ["Deadline must be in the future"%string] else errors
                | None => errors
                end in
  errors.

End Utils.

(* ------------------------------------------------------------------ *)
(** ** [protocols/escrow_protocol.py]

    [datetime.now(timezone.utc).isoformat()] and [str(uuid4())] are passed
    in as [ts] and [mid]; the heartbeat's [int(now.timestamp())] as
    [uptime]. *)
Module Protocol.
Import Py.
Local Open Scope string_scope.

(** [EscrowMessageTypes] *)
Definition CREATE_ESCROW := "create_escrow".
Definition ESCROW_CREATED := "escrow_created".
Definition DEPOSIT_REQUEST := "deposit_request".
Definition DEPOSIT_CONFIRMED := "deposit_confirmed".
Definition FULFILLMENT_REQUEST := "fulfillment_request".
Definition FULFILLMENT_CONFIRMED := "fulfillment_confirmed".
Definition RELEASE_REQUEST := "release_request".
Definition REFUND_REQUEST := "refund_request".
Definition DISPUTE_RAISED := "dispute_raised".
Definition DISPUTE_RESOLVED := "dispute_resolved".
Definition STATUS_UPDATE := "status_update".
Definition ORACLE_VERIFICATION := "oracle_verification".
Definition ORACLE_RESPONSE := "oracle_response".
Definition HEARTBEAT := "heartbeat".
Definition ERROR := "error".
Definition SUCCESS := "success".

Definition create_escrow_message (ts mid : string) (escrow_data : dict) : dict :=
  [("type", VStr CREATE_ESCROW); ("timestamp", VStr ts); ("msg_id", VStr mid);
   ("data", VDict escrow_data)].

Definition create_deposit_message (ts mid : string) (escrow_id : string)
  (asset_data : dict) (transaction_hash : string) : dict :=
  [("type", VStr DEPOSIT_REQUEST); ("timestamp", VStr ts); ("msg_id", VStr mid);
   ("data", VDict [("escrow_id", VStr escrow_id); ("asset_data", VDict asset_data);
                   ("transaction_hash", VStr transaction_hash)])].

Definition create_fulfillment_message (ts mid : string) (escrow_id : string)
  (fulfillment_data : dict) : dict :=
  [("type", VStr FULFILLMENT_REQUEST); ("timestamp", VStr ts); ("msg_id", VStr mid);
   ("data", VDict [("escrow_id", VStr escrow_id);
                   ("fulfillment_data", VDict fulfillment_data)])].

Definition create_dispute_message (ts mid : string) (escrow_id : string)
  (dispute_data : dict) : dict :=
  [("type", VStr DISPUTE_RAISED); ("timestamp", VStr ts); ("msg_id", VStr mid);
   ("data", VDict [("escrow_id", VStr escrow_id); ("dispute_data", VDict dispute_data)])].

Definition create_oracle_verification_message (ts mid : string) (escrow_id : string)
  (transaction_data : dict) : dict :=
  [("type", VStr ORACLE_VERIFICATION); ("timestamp", VStr ts); ("msg_id", VStr mid);
   ("data", VDict [("escrow_id", VStr escrow_id);
                   ("transaction_data", VDict transaction_data)])].

Definition create_status_update_message (ts mid : string) (escrow_id old_status
  new_status reason : string) : dict :=
  [("type", VStr STATUS_UPDATE); ("timestamp", VStr ts); ("msg_id", VStr mid);
   ("data", VDict [("escrow_id", VStr escrow_id); ("old_status", VStr old_status);
                   ("new_status", VStr new_status); ("reason", VStr reason)])].

(** [details: str = None] *)
Definition create_error_message (ts mid : string) (error : string)
  (details : option string) : dict :=
  [("type", VStr ERROR); ("timestamp", VStr ts); ("msg_id", VStr mid);
   ("data", VDict [("error", VStr error);
                   ("details", match details with Some d => VStr d | None => VNone end)])].

(** [data or {}]: [None] and the empty dict both give an empty dict. *)
Definition create_success_message (ts mid : string) (message : string)
  (data : option dict) : dict :=
  [("type", VStr SUCCESS); ("timestamp", VStr ts); ("msg_id", VStr mid);
   ("data", VDict [("message", VStr message);
                   ("data", VDict (match data with Some d => d | None => [] end))])].

Definition create_heartbeat_message (ts mid : string) (uptime : Z)
  (agent_type status : string) : dict :=
  [("type", VStr HEARTBEAT); ("timestamp", VStr ts); ("msg_id", VStr mid);
   ("data", VDict [("agent_type", VStr agent_type); ("status", VStr status);
                   ("uptime", VInt uptime)])].

Definition parse_message_type (message : dict) : value :=
  dict_get message "type" (VStr "unknown").

Definition parse_message_data (message : dict) : value :=
  dict_get message "data" (VDict []).

Definition required_fields : list string := ["type"; "timestamp"; "msg_id"; "data"].

(** [all(field in message for field in required_fields)] *)
Definition validate_message (message : dict) : bool :=
  forallb (fun field => dict_mem field message) required_fields.

Definition create_acknowledgement_message (ts mid : string) (original_msg_id : string) : dict :=
  [("type", VStr "acknowledgement"); ("timestamp", VStr ts); ("msg_id", VStr mid);
   ("data", VDict [("acknowledged_msg_id", VStr original_msg_id)])].

Definition create_response_message (ts mid : string) (original_msg_id response_type : string)
  (response_data : dict) : dict :=
  [("type", VStr response_type); ("timestamp", VStr ts); ("msg_id", VStr mid);
   ("data", VDict [("original_msg_id", VStr original_msg_id);
                   ("response_data", VDict response_data)])].

(** [EscrowProtocolConstants.SUPPORTED_MESSAGE_TYPES] *)
Definition SUPPORTED_MESSAGE_TYPES : list string :=
  [CREATE_ESCROW; ESCROW_CREATED; DEPOSIT_REQUEST; DEPOSIT_CONFIRMED;
   FULFILLMENT_REQUEST; FULFILLMENT_CONFIRMED; RELEASE_REQUEST; REFUND_REQUEST;
   DISPUTE_RAISED; DISPUTE_RESOLVED; STATUS_UPDATE; ORACLE_VERIFICATION;
   ORACLE_RESPONSE; HEARTBEAT; ERROR; SUCCESS].

(** The envelopes built by the constructors whose type tag is a constant of
    [EscrowMessageTypes], indexed by tag, timestamp, message id and the
    payload placed under ["data"]. *)
Inductive fixed_tag_envelope : dict -> string -> string -> string -> value -> Prop :=
| env_escrow ts mid d :
    fixed_tag_envelope (create_escrow_message ts mid d) CREATE_ESCROW ts mid (VDict d)
| env_deposit ts mid eid ad th :
    fixed_tag_envelope (create_deposit_message ts mid eid ad th) DEPOSIT_REQUEST ts mid
      (VDict [("escrow_id", VStr eid); ("asset_data", VDict ad); ("transaction_hash", VStr th)])
| env_fulfillment ts mid eid fd :
    fixed_tag_envelope (create_fulfillment_message ts mid eid fd) FULFILLMENT_REQUEST ts mid
      (VDict [("escrow_id", VStr eid); ("fulfillment_data", VDict fd)])
| env_dispute ts mid eid dd :
    fixed_tag_envelope (create_dispute_message ts mid eid dd) DISPUTE_RAISED ts mid
      (VDict [("escrow_id", VStr eid); ("dispute_data", VDict dd)])
| env_oracle ts mid eid td :
    fixed_tag_envelope (create_oracle_verification_message ts mid eid td) ORACLE_VERIFICATION ts mid
      (VDict [("escrow_id", VStr eid); ("transaction_data", VDict td)])
| env_status ts mid eid o n r :
    fixed_tag_envelope (create_status_update_message ts mid eid o n r) STATUS_UPDATE ts mid
      (VDict [("escrow_id", VStr eid); ("old_status", VStr o); ("new_status", VStr n);
              ("reason", VStr r)])
| env_error ts mid e det :
    fixed_tag_envelope (create_error_message ts mid e det) ERROR ts mid
      (VDict [("error", VStr e); ("details", match det with Some d => VStr d | None => VNone end)])
| env_success ts mid msg data :
    fixed_tag_envelope (create_success_message ts mid msg data) SUCCESS ts mid
      (VDict [("message", VStr msg); ("data", VDict (match data with Some d => d | None => [] end))])
| env_heartbeat ts mid up agt st :
    fixed_tag_envelope (create_heartbeat_message ts mid up agt st) HEARTBEAT ts mid
      (VDict [("agent_type", VStr agt); ("status", VStr st); ("uptime", VInt up)]).

(** Every envelope the module's [create_*] functions build. *)
Inductive envelope : dict -> string -> string -> string -> value -> Prop :=
| env_fixed m t ts mid d : fixed_tag_envelope m t ts mid d -> envelope m t ts mid d
| env_ack ts mid o :
    envelope (create_acknowledgement_message ts mid o) "acknowledgement" ts mid
      (VDict [("acknowledged_msg_id", VStr o)])
| env_response ts mid o rt rd :
    envelope (create_response_message ts mid o rt rd) rt ts mid
      (VDict [("original_msg_id", VStr o); ("response_data", VDict rd)]).

End Protocol.

(* ------------------------------------------------------------------ *)
(** ** [agents/arbiter_agent.py] *)
Module Arbiter.
Import Py.
Local Open Scope string_scope.

(** The float literals 0.5, 0.6 and 0.8. *)
Definition conf_05 : F64.float := F64.of_decimal false 5 (-1).
Definition conf_06 : F64.float := F64.of_decimal false 6 (-1).
Definition conf_08 : F64.float := F64.of_decimal false 8 (-1).

(** [analyze_dispute] (lines 45-81). *)
Definition analyze_dispute (dispute_data : dict) : Exc dict :=
  let analysis :=
    [("dispute_id", dict_get dispute_data "dispute_id" VNone);
     ("parties", VDict [("buyer", dict_get dispute_data "buyer_address" VNone);
                        ("seller", dict_get dispute_data "seller_address" VNone)]);
     ("evidence", dict_get dispute_data "evidence" (VList []));
     ("recommendation", VStr "REQUIRES_MORE_EVIDENCE");
     ("confidence", VFloat conf_05);
     ("reasoning", VStr "Insufficient evidence to make a decision");
     ("required_evidence", VList [VStr "Transaction proof"; VStr "Communication logs";
                                  VStr "Delivery confirmation"])] in
  evidence_count <- py_len (dict_get dispute_data "evidence" (VList [])) ;;
  if (3 <=? evidence_count)%nat then
    let analysis := dict_set analysis "recommendation" (VStr "RELEASE_FUNDS") in
    let analysis := dict_set analysis "confidence" (VFloat conf_08) in
    let analysis := dict_set analysis "reasoning"
                      (VStr "Sufficient evidence supports seller's claim") in
    ret analysis
  else if (1 <=? evidence_count)%nat then
    let analysis := dict_set analysis "recommendation" (VStr "REFUND_FUNDS") in
    let analysis := dict_set analysis "confidence" (VFloat conf_06) in
    let analysis := dict_set analysis "reasoning" (VStr "Evidence supports buyer's claim") in
    ret analysis
  else ret analysis.

End Arbiter.

(* ------------------------------------------------------------------ *)
(** ** [agents/oracle_agent.py] *)
Module Oracle.
Import Py.
Local Open Scope string_scope.

(** A [requests] response: status code and body text. *)
Record response := mkResponse { status_code : Z; text : string }.

Definition ASI_ONE_URL := "https://api.asi1.ai/v1/chat/completions".

(** [str(e)] *)
Definition exn_str (e : exn) : string :=
  match e with
  | ValueError m | TypeError m | IndexError m | JSONDecodeError m
  | RequestException m => m
  | KeyError k => k
  | HTTPError _ => "HTTP error"
  end.

Definition failure (msg : string) : value :=
  VDict [("verified", VBool false); ("confidence", VFloat (S754_zero false));
         ("error", VStr msg)].

Section Verify.
(** [os.getenv('ASI_ONE_API_KEY')] *)
Variable ASI_ONE_API_KEY : option string.
(** [requests.post(url, headers=..., json=..., timeout=30)]: a response or
    a raised [RequestException]. *)
Variable requests_post : string -> dict -> dict -> Exc response.
(** [json.loads] on a string; [None] is the [JSONDecodeError]. *)
Variable json_loads : string -> option value.
(** [str()] of a value, as used by the f-string of the prompt. *)
Variable py_str : value -> string.

(** [response.raise_for_status()] *)
Definition raise_for_status (r : response) : Exc unit :=
  if ((400 <=? status_code r) && (status_code r <? 600))%Z then raise (HTTPError (status_code r))
  else ret tt.

(** [response.json()] *)
Definition response_json (r : response) : Exc value :=
  match json_loads (text r) with
  | Some v => ret v
  | None => raise (JSONDecodeError "Expecting value")
  end.

(** [json.loads(ai_response)]: only a [str] is accepted. *)
Definition loads (v : value) : Exc value :=
  match v with
  | VStr s => match json_loads s with
              | Some r => ret r
              | None => raise (JSONDecodeError "Expecting value")
              end
  | _ => raise (TypeError "the JSON object must be str, bytes or bytearray")
  end.

Definition headers (key : string) : dict :=
  [("Content-Type", VStr "application/json"); ("Authorization", VStr ("Bearer " ++ key))].

Definition field (transaction_data : dict) (k : string) : string :=
  py_str (dict_get transaction_data k (VStr "N/A")).

(** The f-string of lines 64-88, with its fixed instruction lines
    abbreviated: the prompt only reaches [requests_post]. *)
Definition prompt (transaction_data : dict) : string :=
  "Analyze this transaction for verification: Transaction Hash: "
  ++ field transaction_data "transaction_hash" ++ " Amount: " ++ field transaction_data "amount"
  ++ " Token: " ++ field transaction_data "token" ++ " Chain ID: "
  ++ field transaction_data "chain_id" ++ " From: " ++ field transaction_data "from_address"
  ++ " To: " ++ field transaction_data "to_address"
  ++ " Please verify: ... Respond with JSON.".

Definition request_body (transaction_data : dict) : dict :=
  [("model", VStr "asi1-mini");
   ("messages", VList [VDict [("role", VStr "system");
                              ("content", VStr "You are a blockchain transaction verification expert.")];
                       VDict [("role", VStr "user"); ("content", VStr (prompt transaction_data))]]);
   ("max_tokens", VInt 500);
   ("temperature", VFloat (F64.of_decimal false 1 (-1)))].

(** [result['choices'][0]['message']['content']] *)
Definition ai_content (result : value) : Exc value :=
  c <- getitem_key result "choices" ;;
  c0 <- getitem_index c 0 ;;
  m <- getitem_key c0 "message" ;;
  getitem_key m "content".

(** [not ASI_ONE_API_KEY] *)
Definition key_missing : bool :=
  match ASI_ONE_API_KEY with None => true | Some k => str_empty k end.

(** [verify_transaction_with_ai] (lines 50-122). *)
Definition verify_transaction_with_ai (transaction_data : dict) : Exc value :=
  match ASI_ONE_API_KEY with
  | None => ret (failure "AI service not configured")
  | Some k =>
      if str_empty k then ret (failure "AI service not configured")
      else
        try_except
          (response <- requests_post ASI_ONE_URL (headers k) (request_body transaction_data) ;;
           _ <- raise_for_status response ;;
           result <- response_json response ;;
           ai_response <- ai_content result ;;
           try_except (loads ai_response)
             (fun e => match e with JSONDecodeError _ => true | _ => false end)
             (fun _ => ret (failure "Failed to parse AI response")))
          is_Exception
          (fun e => ret (failure (exn_str e)))
  end.

End Verify.

End Oracle.

(* ------------------------------------------------------------------ *)
(** ** Escrow registry *)
Module Registry.
Import Py Models.
Local Open Scope string_scope.

(** Modelled from the spec: the EscrowRegistry of section 4.1, whose state
    machine over [EscrowState] is not part of the Python sources (only the
    enum of its states is, in models.py). Commands are checked against the
    current status first; a legal command then has its payload validated;
    only then is the escrow rewritten. *)
Inductive Decision := release | refund.

Inductive Command :=
| Deposit (asset : Asset) (proof : option string)
| ConfirmFulfillment
| RaiseDispute (dispute_id : string) (reason : string) (evidence : list dict)
| ResolveDispute (decision : Decision)
| Cancel.

Inductive RegistryError :=
| ValidationError (reasons : list string)
| InvalidStateError
| NotFoundError.

Definition registry := list (string * EscrowData).

Fixpoint lookup (reg : registry) (id : string) : option EscrowData :=
  match reg with
  | [] => None
  | (k, e) :: r => if String.eqb id k then Some e else lookup r id
  end.

Fixpoint update (reg : registry) (id : string) (e : EscrowData) : registry :=
  match reg with
  | [] => []
  | (k, e') :: r => if String.eqb id k then (k, e) :: r else (k, e') :: update r id e
  end.

(** Modelled from the spec: the guarded transitions of section 4.1, the
    status a command moves to when it is legal in [s]. *)
Definition next_status (s : EscrowState) (c : Command) : option EscrowState :=
  match c, s with
  | Deposit _ _, AWAITING_DEPOSIT => Some AWAITING_FULFILLMENT
  | ConfirmFulfillment, AWAITING_FULFILLMENT => Some COMPLETED
  | RaiseDispute _ _ _, AWAITING_DEPOSIT => Some DISPUTE_RAISED
  | RaiseDispute _ _ _, AWAITING_FULFILLMENT => Some DISPUTE_RAISED
  | ResolveDispute release, DISPUTE_RAISED => Some COMPLETED
  | ResolveDispute refund, DISPUTE_RAISED => Some CANCELED
  | Cancel, AWAITING_DEPOSIT => Some CANCELED
  | _, _ => None
  end.

Definition on_chain (t : TradeType) : bool :=
  match t with FIAT_P2P => false | CRYPTO | CROSS_CHAIN => true end.

(** Modelled from the spec: payload validation of a legal command. *)
Definition validate_payload (e : EscrowData) (c : Command) : list string :=
  match c with
  | Deposit _ proof =>
      if on_chain (trade_type e) then
        match proof with
        | Some h => if Utils.validate_transaction_hash h then []
                    else ["Invalid transaction hash"]
        | None => ["Transaction proof required"]
        end
      else []
  | RaiseDispute _ reason _ => if str_empty reason then ["Dispute reason is required"] else []
  | _ => []
  end.

Definition with_status (e : EscrowData) (s : EscrowState) (now : Z)
  (deposit_tx : option string) (did dreason : option string) (devidence : list dict)
  : EscrowData :=
  mkEscrowData (escrow_id e) (contract_address e) s (trade_type e)
    (buyer_address e) (seller_address e) (arbiter_address e) (creator_agent e)
    (asset_a e) (asset_b e) (terms e) (created_at e) now
    deposit_tx (fulfillment_tx_hash e) (release_tx_hash e) (refund_tx_hash e)
    did dreason devidence
    (frontend_callback_url e) (frontend_session_id e) (metadata e).

(** Modelled from the spec: the escrow after a legal, validated command. *)
Definition apply_effect (now : Z) (e : EscrowData) (c : Command) (s' : EscrowState)
  : EscrowData :=
  match c with
  | Deposit _ proof =>
      with_status e s' now proof (dispute_id e) (dispute_reason e) (dispute_evidence e)
  | RaiseDispute did reason ev =>
      with_status e s' now (deposit_tx_hash e) (Some did) (Some reason) ev
  | _ =>
      with_status e s' now (deposit_tx_hash e) (dispute_id e) (dispute_reason e)
        (dispute_evidence e)
  end.

(** Modelled from the spec: one command against escrow [id], with the
    result and the registry afterwards. *)
Definition apply_command (now : Z) (reg : registry) (id : string) (c : Command)
  : (RegistryError + EscrowState) * registry :=
  match lookup reg id with
  | None => (inl NotFoundError, reg)
  | Some e =>
      match next_status (status e) c with
      | None => (inl InvalidStateError, reg)
      | Some s' =>
          match validate_payload e c with
          | [] => (inr s', update reg id (apply_effect now e c s'))
          | errs => (inl (ValidationError errs), reg)
          end
      end
  end.

End Registry.

(* ------------------------------------------------------------------ *)
(** ** The specification's statements, as definitions to compare with *)
Module SpecSide.
Import Py.
Local Open Scope string_scope.

(** Address / transaction-hash validity: the literal prefix [0x] followed
    by exactly [n] hexadecimal characters. *)
Definition is_hex_char (c : ascii) : bool :=
  match hex_digit_value c with Some _ => true | None => false end.

Definition prefixed_hex (n : nat) (s : string) : bool :=
  startswith s "0x" && (String.length s =? n + 2)%nat
  && forallb is_hex_char (list_ascii_of_string (slice_from 2 s)).

(** The arbiter's table: recommendation and confidence per evidence count. *)
Definition table_recommendation (n : nat) : string :=
  match n with
  | O => "REQUIRES_MORE_EVIDENCE"
  | 1 | 2 => "REFUND_FUNDS"
  | _ => "RELEASE_FUNDS"
  end%nat.

Definition table_confidence (n : nat) : F64.float :=
  match n with
  | O => F64.of_decimal false 5 (-1)
  | 1 | 2 => F64.of_decimal false 6 (-1)
  | _ => F64.of_decimal false 8 (-1)
  end%nat.

(** The exact rational value of a decimal string such as ["98.5"]. *)
Definition dec_value (s : string) : option Q :=
  let '(neg, cs) := split_sign (list_ascii_of_string s) in
  match F64.parse_decimal cs with
  | Some (d, k) =>
      let d := if neg then - d else d in
      Some (if (0 <=? k)%Z then inject_Z (d * 10 ^ k) else Qmake d (Z.to_pos (10 ^ (- k))))
  | None => None
  end.

(** The real value of a finite double. *)
Definition sf_to_Q (f : F64.float) : option Q :=
  match f with
  | S754_zero _ => Some 0%Q
  | S754_finite s m e =>
      let z := if s then Zneg m else Zpos m in
      Some (if (0 <=? e)%Z then inject_Z (z * 2 ^ e) else Qmake z (Z.to_pos (2 ^ (- e))))
  | _ => None
  end.

Definition out_value (out : dict) (k : string) : option Q :=
  match dict_get out k VNone with VStr s => dec_value s | _ => None end.

(** The exact fee split: each fee is [A * pct / 100], the net is the rest,
    and the three parts add up to [A] within the 18-digit rendering. *)
Definition exact_fee_split (A : string) (p a : F64.float) : Prop :=
  forall vA vp va out pv av nv,
    dec_value A = Some vA -> (0 <= vA)%Q ->
    sf_to_Q p = Some vp -> sf_to_Q a = Some va ->
    Utils.calculate_fees A p a = inr out ->
    out_value out "platform_fee" = Some pv -> out_value out "arbiter_fee" = Some av ->
    out_value out "net_amount" = Some nv ->
    (pv == vA * vp / 100 /\ av == vA * va / 100 /\ nv == vA - pv - av
     /\ Qabs (pv + av + nv - vA) <= 1 # (10 ^ 18))%Q.

(** The fee-split invariant [platform + arbiter < 100] is violated. *)
Definition fee_split_violated (t : Models.EscrowTerms) : bool :=
  F64.leb Utils.hundred
    (F64.add (Models.platform_fee_percentage t) (Models.arbiter_fee_percentage t)).

(** The escrow datum with other fee percentages. *)
Definition with_fees (d : Models.EscrowData) (pf af : F64.float) : Models.EscrowData :=
  let t' := match Models.terms d with
            | Some t => Some (Models.mkEscrowTerms (Models.description t) (Models.deadline t)
                               (Models.auto_release_hours t) (Models.dispute_window_hours t)
                               af pf)
            | None => None
            end in
  Models.mkEscrowData (Models.escrow_id d) (Models.contract_address d) (Models.status d)
    (Models.trade_type d) (Models.buyer_address d) (Models.seller_address d)
    (Models.arbiter_address d) (Models.creator_agent d) (Models.asset_a d) (Models.asset_b d)
    t' (Models.created_at d) (Models.updated_at d) (Models.deposit_tx_hash d)
    (Models.fulfillment_tx_hash d) (Models.release_tx_hash d) (Models.refund_tx_hash d)
    (Models.dispute_id d) (Models.dispute_reason d) (Models.dispute_evidence d)
    (Models.frontend_callback_url d) (Models.frontend_session_id d) (Models.metadata d).

(** The transition graph of the claim: the commands legal in each status. *)
Definition claim_legal (s : Models.EscrowState) (c : Registry.Command) : bool :=
  match s, c with
  | Models.AWAITING_DEPOSIT, Registry.Deposit _ _ => true
  | Models.AWAITING_FULFILLMENT, Registry.ConfirmFulfillment => true
  | Models.AWAITING_DEPOSIT, Registry.RaiseDispute _ _ _ => true
  | Models.AWAITING_FULFILLMENT, Registry.RaiseDispute _ _ _ => true
  | Models.DISPUTE_RAISED, Registry.ResolveDispute _ => true
  | Models.AWAITING_DEPOSIT, Registry.Cancel => true
  | _, _ => false
  end.

(** Concrete inputs used below. *)
Definition address_0x0x : string := "0x0x" ++ F64.repeat_char "0" 38.
Definition tx_hash_0x0x : string := "0x0x" ++ F64.repeat_char "0" 62.

Definition sample_asset : Models.Asset :=
  Models.mkAsset Models.ETH None "1" Models.ETHEREUM (Some "ETH") 18 None.

(** A well-formed escrow datum at time 1000 whose fees are 60.0 and 50.0. *)
Definition sample_escrow : Models.EscrowData :=
  Models.mkEscrowData "escrow_0000000001" None Models.AWAITING_DEPOSIT Models.CRYPTO
    ("0x" ++ F64.repeat_char "1" 40) ("0x" ++ F64.repeat_char "2" 40)
    ("0x" ++ F64.repeat_char "3" 40) "buyer_agent"
    (Some sample_asset) (Some sample_asset)
    (Some (Models.mkEscrowTerms "Swap 1 ETH for 1 ETH" 2000 None 24
             (F64.of_decimal false 500 (-1)) (F64.of_decimal false 600 (-1))))
    1000 1000 None None None None None None [] None None [].

End SpecSide.

(* ------------------------------------------------------------------ *)
(** ** [shared/utils.py]: identifiers, display helpers, message content *)
Module UtilsMore.
Import Py Models.
Local Open Scope string_scope.

(** [str(n)] of an [int]. *)
Definition str_int (z : Z) : string :=
  if (z <? 0)%Z then "-" ++ F64.digits_of_Z (- z) else F64.digits_of_Z z.

(** A slice bound as Python normalises it: a negative index counts from
    the end, and the result is clamped to [0, len]. *)
Definition norm_index (i len : Z) : Z :=
  if (i <? 0)%Z then Z.max 0 (i + len) else Z.min i len.

(** [s[i:j]] *)
Definition py_slice (s : string) (i j : Z) : string :=
  let len := Z.of_nat (String.length s) in
  let i' := norm_index i len in
  let j' := norm_index j len in
  substring (Z.to_nat i') (Z.to_nat (j' - i')) s.

(** [generate_escrow_id] (lines 12-16). [int(time.time())] is [timestamp];
    [hexdigest] is the [hashlib.md5(...).hexdigest()] of the mixed-in clock
    reading, 32 hexadecimal characters. *)
Definition generate_escrow_id (timestamp : Z) (hexdigest : string) : string :=
  "escrow_" ++ str_int timestamp ++ "_" ++ py_slice hexdigest 0 8.

(** [generate_dispute_id] (lines 18-22). *)
Definition generate_dispute_id (timestamp : Z) (hexdigest : string) : string :=
  "dispute_" ++ str_int timestamp ++ "_" ++ py_slice hexdigest 0 8.

(** [format_address] (lines 87-92). *)
Definition format_address (address : string) (length : Z) : string :=
  if str_empty address || (Z.of_nat (String.length address) <? length * 2 + 2)%Z then address
  else py_slice address 0 length ++ "..."
       ++ py_slice address (- length) (Z.of_nat (String.length address)).

(** [item.get(k) == s] for a JSON value and a [str] constant. *)
Definition str_is (v : value) (s : string) : bool :=
  match v with VStr s' => String.eqb s' s | _ => false end.

(** [create_text_content] (lines 126-131). *)
Definition create_text_content (text : string) : dict :=
  [("type", VStr "text"); ("text", VStr text)].

(** [create_metadata_content] (lines 133-138). *)
Definition create_metadata_content (metadata : dict) : dict :=
  [("type", VStr "metadata"); ("metadata", VDict metadata)].

Definition TradeType_value (t : TradeType) : string :=
  match t with CRYPTO => "crypto" | FIAT_P2P => "fiat_p2p" | CROSS_CHAIN => "cross_chain" end.

Definition opt_str (o : option string) : value :=
  match o with Some s => VStr s | None => VNone end.

(** The ["escrow_data"] payload of [create_escrow_content]. *)
Definition escrow_summary (e : EscrowData) : dict :=
  [("escrow_id", VStr (escrow_id e));
   ("contract_address", opt_str (contract_address e));
   ("status", VInt (EscrowState_value (status e)));
   ("trade_type", VStr (TradeType_value (trade_type e)));
   ("buyer_address", VStr (buyer_address e));
   ("seller_address", VStr (seller_address e));
   ("arbiter_address", VStr (arbiter_address e));
   ("created_at", VInt (created_at e));
   ("updated_at", VInt (updated_at e))].

(** [create_escrow_content] (lines 140-155). *)
Definition create_escrow_content (e : EscrowData) : dict :=
  [("type", VStr "escrow_data"); ("escrow_data", VDict (escrow_summary e))].

(** [extract_escrow_data] (lines 188-193); [VNone] is [None]. *)
Fixpoint extract_escrow_data (content : list dict) : value :=
  match content with
  | [] => VNone
  | item :: r =>
      if str_is (dict_get item "type" VNone) "escrow_data"
      then dict_get item "escrow_data" VNone
      else extract_escrow_data r
  end.

(** [extract_text_content] (lines 202-208). *)
Fixpoint extract_text_content (content : list dict) : list value :=
  match content with
  | [] => []
  | item :: r =>
      if str_is (dict_get item "type" VNone) "text"
      then dict_get item "text" (VStr "") :: extract_text_content r
      else extract_text_content r
  end.

(** [extract_metadata] (lines 210-215). *)
Fixpoint extract_metadata (content : list dict) : value :=
  match content with
  | [] => VDict []
  | item :: r =>
      if str_is (dict_get item "type" VNone) "metadata"
      then dict_get item "metadata" (VDict [])
      else extract_metadata r
  end.

(** [create_error_message] (lines 217-225): [if details:] is false for
    [None] and for the empty string. *)
Definition create_error_message (error : string) (details : option string) : dict :=
  let error_data := [("type", VStr "error"); ("error", VStr error)] in
  match details with
  | Some d => if str_empty d then error_data else dict_set error_data "details" (VStr d)
  | None => error_data
  end.

(** [create_success_message] (lines 227-235): [if data:] is false for
    [None] and for the empty dict. *)
Definition create_success_message (message : string) (data : option dict) : dict :=
  let success_data := [("type", VStr "success"); ("message", VStr message)] in
  match data with
  | Some ((_ :: _) as d) => dict_set success_data "data" (VDict d)
  | _ => success_data
  end.

(** [calculate_time_remaining] (lines 263-290); [current_time] is
    [int(time.time())]. [//] and [%] by a positive divisor are [Z.div] and
    [Z.modulo]. *)
Definition calculate_time_remaining (current_time deadline : Z) : dict :=
  let remaining := deadline - current_time in
  if (remaining <=? 0)%Z then
    [("total_seconds", VInt 0); ("days", VInt 0); ("hours", VInt 0);
     ("minutes", VInt 0); ("seconds", VInt 0); ("expired", VBool true)]
  else
    let days := remaining / (24 * 60 * 60) in
    let hours := (remaining mod (24 * 60 * 60)) / (60 * 60) in
    let minutes := (remaining mod (60 * 60)) / 60 in
    let seconds := remaining mod 60 in
    [("total_seconds", VInt remaining); ("days", VInt days); ("hours", VInt hours);
     ("minutes", VInt minutes); ("seconds", VInt seconds); ("expired", VBool false)].

(** [time_data[k]] where the value is an [int] (every key read below is
    always present with an [int] value). *)
Definition int_at (d : dict) (k : string) : Z :=
  match dict_get d k VNone with VInt z => z | _ => 0 end.

Definition truthy_at (d : dict) (k : string) : bool :=
  match dict_get d k VNone with VBool b => b | _ => false end.

(** [format_time_remaining] (lines 292-309). *)
Definition format_time_remaining (current_time deadline : Z) : string :=
  let time_data := calculate_time_remaining current_time deadline in
  if truthy_at time_data "expired" then "Expired"
  else
    let parts : list string := [] in
    let parts := if (0 <? int_at time_data "days")%Z
                 then (parts ++ [(str_int (int_at time_data "days") ++ "d")%string])%list else parts in
    let parts := if (0 <? int_at time_data "hours")%Z
                 then (parts ++ [(str_int (int_at time_data "hours") ++ "h")%string])%list else parts in
    let parts := if (0 <? int_at time_data "minutes")%Z
                 then (parts ++ [(str_int (int_at time_data "minutes") ++ "m")%string])%list else parts in
    let parts := if (0 <? int_at time_data "seconds")%Z
                 then (parts ++ [(str_int (int_at time_data "seconds") ++ "s")%string])%list else parts in
    match parts with
    | [] => "0s"
    | _ => String.concat " " parts
    end.

End UtilsMore.

(* ------------------------------------------------------------------ *)
(** ** Keyword routing of the arbiter and oracle agents *)
Module Routing.
Import Py.
Local Open Scope string_scope.

(** [needle in hay] *)
Fixpoint contains (needle hay : string) : bool :=
  match hay with
  | EmptyString => String.prefix needle hay
  | String _ r => String.prefix needle hay || contains needle r
  end.

(** [s.lower()] on ASCII text. *)
Definition str_lower (s : string) : string :=
  string_of_list_ascii (map F64.lower (list_ascii_of_string s)).

(** The handler each router awaits; every handler sends one fixed text. *)
Inductive arbiter_handler :=
| handle_analyze_dispute | handle_resolve_dispute | handle_request_evidence
| arbiter_help | arbiter_not_sure.

(** [handle_arbiter_request] (arbiter_agent.py, lines 118-131). *)
Definition handle_arbiter_request (request : string) : arbiter_handler :=
  let request_lower := str_lower request in
  if contains "analyze" request_lower || contains "review" request_lower
  then handle_analyze_dispute
  else if contains "resolve" request_lower || contains "decision" request_lower
  then handle_resolve_dispute
  else if contains "evidence" request_lower then handle_request_evidence
  else if contains "help" request_lower then arbiter_help
  else arbiter_not_sure.

Inductive oracle_handler :=
| handle_verify_transaction | handle_check_status | oracle_help | oracle_not_sure.

(** [handle_oracle_request] (oracle_agent.py, lines 154-165). *)
Definition handle_oracle_request (request : string) : oracle_handler :=
  let request_lower := str_lower request in
  if contains "verify" request_lower || contains "check" request_lower
  then handle_verify_transaction
  else if contains "status" request_lower then handle_check_status
  else if contains "help" request_lower then oracle_help
  else oracle_not_sure.

(** The position of a handler in its router's [if]/[elif] chain. *)
Definition arbiter_priority (h : arbiter_handler) : nat :=
  match h with
  | handle_analyze_dispute => 0 | handle_resolve_dispute => 1
  | handle_request_evidence => 2 | arbiter_help => 3 | arbiter_not_sure => 4
  end.

Definition oracle_priority (h : oracle_handler) : nat :=
  match h with
  | handle_verify_transaction => 0 | handle_check_status => 1
  | oracle_help => 2 | oracle_not_sure => 3
  end.

End Routing.

(* ================================================================== *)
(** * Properties *)

Open Scope string_scope.

Example int_base16_tests :
  Py.int_base16 "ff" = Some 255 /\ Py.int_base16 " -0x_1F " = Some (-31)
  /\ Py.int_base16 "1__2" = None /\ Py.int_base16 "0x" = None
  /\ Py.int_base16 "1_" = None /\ Py.int_base16 "_1" = None
  /\ Py.int_base16 "1_2" = Some 18 /\ Py.int_base16 "g" = None.
Proof. vm_compute. repeat split. Qed.

Example float_tests :
  F64.of_string "0.1" = Some (S754_finite false 7205759403792794 (-56))
  /\ F64.of_string " 1_000.5e-1 " = Some (F64.of_decimal false 10005 (-2))
  /\ F64.of_string "1__0" = None /\ F64.of_string "" = None
  /\ F64.of_string "-InFinity" = Some (S754_infinity true)
  /\ F64.of_string "1e" = None /\ F64.of_string "." = None
  /\ F64.of_string "1e400" = Some (S754_infinity false)
  /\ F64.format_fixed 18 (F64.of_decimal false 1 (-1)) = "0.100000000000000006"%string
  /\ F64.format_fixed 2 (F64.of_decimal false 125 (-3)) = "0.12"%string
  /\ F64.format_fixed 0 (F64.of_decimal false 25 (-1)) = "2"%string.
Proof. vm_compute. repeat split. Qed.


(** ** Dictionary helpers *)

Lemma dict_mem_iff (k : string) (d : Py.dict) :
  Py.dict_mem k d = true <-> In k (map fst d).
Proof.
  induction d as [|[k' v] r IH]; simpl.
  - split; [discriminate | contradiction].
  - rewrite orb_true_iff, String.eqb_eq, IH. split; intros [H|H]; auto.
Qed.

(** ** C2: the arbiter's recommendation *)

(** C2. For every dispute whose evidence is a list (or absent), the
    recommendation and the confidence of [analyze_dispute] are those of the
    count table at the number of evidence items: 0 gives
    REQUIRES_MORE_EVIDENCE / 0.5, 1 or 2 give REFUND_FUNDS / 0.6, 3 or more
    give RELEASE_FUNDS / 0.8. They depend on that count alone, never on the
    evidence's content. *)
Theorem analyze_dispute_by_evidence_count :
  forall (dispute_data : Py.dict) (ev : list Py.value),
    Py.dict_get dispute_data "evidence" (Py.VList []) = Py.VList ev ->
    exists analysis,
      Arbiter.analyze_dispute dispute_data = inr analysis /\
      Py.dict_get analysis "recommendation" Py.VNone
        = Py.VStr (SpecSide.table_recommendation (List.length ev)) /\
      Py.dict_get analysis "confidence" Py.VNone
        = Py.VFloat (SpecSide.table_confidence (List.length ev)).
Proof.
  intros dispute_data ev Hev.
  unfold Arbiter.analyze_dispute. rewrite Hev. cbn [Py.bind Py.py_len].
  destruct (List.length ev) as [|[|[|n]]] eqn:Hlen; cbn; eexists; repeat split.
Qed.

Lemma analyze_dispute_by_evidence_count_witness :
  exists analysis,
    Arbiter.analyze_dispute [("evidence", Py.VList [Py.VStr "tx"; Py.VStr "log"])]%string
      = inr analysis /\
    Py.dict_get analysis "recommendation" Py.VNone
      = Py.VStr (SpecSide.table_recommendation (List.length [Py.VStr "tx"; Py.VStr "log"]%string)) /\
    Py.dict_get analysis "confidence" Py.VNone
      = Py.VFloat (SpecSide.table_confidence (List.length [Py.VStr "tx"; Py.VStr "log"]%string)).
Proof.
  apply (analyze_dispute_by_evidence_count
           [("evidence", Py.VList [Py.VStr "tx"; Py.VStr "log"])]%string
           [Py.VStr "tx"; Py.VStr "log"]%string).
  reflexivity.
Defined.

(** ** C3: address and transaction-hash validation *)

(** C3 (code_bug). [validate_address] accepts "0x0x" followed by 38 zeros,
    which is not "0x" followed by 40 hexadecimal characters: the remainder
    after "0x" is handed to [int(_, 16)], which also accepts a second "0x"
    prefix (as well as a sign, surrounding whitespace and underscores).
    [validate_transaction_hash] has the same defect at length 66. *)
Theorem validate_address_accepts_double_prefix :
  Utils.validate_address SpecSide.address_0x0x = true /\
  SpecSide.prefixed_hex 40 SpecSide.address_0x0x = false /\
  Utils.validate_transaction_hash SpecSide.tx_hash_0x0x = true /\
  SpecSide.prefixed_hex 64 SpecSide.tx_hash_0x0x = false.
Proof. vm_compute. repeat split. Qed.

(** ** C7: envelope validation *)

(** C7. [validate_message m] is [True] exactly when the four fields type,
    timestamp, msg_id and data are all keys of [m]. *)
Theorem validate_message_iff_fields_present :
  forall m : Py.dict,
    Protocol.validate_message m = true <->
    (In "type"%string (map fst m) /\ In "timestamp"%string (map fst m) /\
     In "msg_id"%string (map fst m) /\ In "data"%string (map fst m)).
Proof.
  intro m. unfold Protocol.validate_message, Protocol.required_fields. simpl.
  rewrite !andb_true_iff, !dict_mem_iff. tauto.
Qed.

Lemma validate_message_iff_fields_present_witness :
  Protocol.validate_message
    (Protocol.create_heartbeat_message "2026-01-01T00:00:00+00:00" "id-1" 0 "buyer" "active")
    = true.
Proof.
  apply (proj2 (validate_message_iff_fields_present
    (Protocol.create_heartbeat_message "2026-01-01T00:00:00+00:00" "id-1" 0 "buyer" "active"))).
  simpl. tauto.
Defined.

(** ** C8: decoding a constructed envelope *)

(** C8. For every envelope built by the protocol's constructors, with type
    tag [t], timestamp [ts], message id [mid] and payload [d],
    [parse_message_type] returns [t], [parse_message_data] returns [d], and
    the timestamp and msg_id fields hold [ts] and [mid]. *)
Theorem envelope_roundtrip :
  forall m t ts mid d,
    Protocol.envelope m t ts mid d ->
    Protocol.parse_message_type m = Py.VStr t /\
    Protocol.parse_message_data m = d /\
    Py.dict_get m "timestamp" Py.VNone = Py.VStr ts /\
    Py.dict_get m "msg_id" Py.VNone = Py.VStr mid.
Proof.
  intros m t ts mid d Henv.
  destruct Henv as [m t ts mid d Hf | | ]; [destruct Hf|..]; repeat split.
Qed.

Lemma envelope_roundtrip_witness :
  Protocol.parse_message_type (Protocol.create_escrow_message "ts" "mid" [])
    = Py.VStr Protocol.CREATE_ESCROW /\
  Protocol.parse_message_data (Protocol.create_escrow_message "ts" "mid" []) = Py.VDict [] /\
  Py.dict_get (Protocol.create_escrow_message "ts" "mid" []) "timestamp" Py.VNone
    = Py.VStr "ts" /\
  Py.dict_get (Protocol.create_escrow_message "ts" "mid" []) "msg_id" Py.VNone
    = Py.VStr "mid".
Proof.
  apply (envelope_roundtrip _ _ _ _ _
           (Protocol.env_fixed _ _ _ _ _ (Protocol.env_escrow "ts" "mid" []))).
Defined.

(** ** C10: the constructors against [validate_message] and the catalog *)

(** C10 (counterexample). Not every constructor tag other than the
    acknowledgement's is in SUPPORTED_MESSAGE_TYPES:
    [create_response_message] uses its caller's [response_type] as tag, for
    instance "escrow_status". *)
Lemma response_tag_outside_catalog :
  ~ (forall m t ts mid d,
       Protocol.envelope m t ts mid d -> t <> "acknowledgement"%string ->
       In t Protocol.SUPPORTED_MESSAGE_TYPES).
Proof.
  intro H.
  assert (Hin := H _ _ _ _ _ (Protocol.env_response "ts" "mid" "m-1" "escrow_status" [])).
  vm_compute in Hin.
  assert (Hne : "escrow_status"%string <> "acknowledgement"%string) by discriminate.
  specialize (Hin Hne). repeat (destruct Hin as [Hin|Hin]; [discriminate Hin|]). exact Hin.
Qed.

(** C10 (amended). Every envelope built by the protocol's constructors
    (the eleven create_* functions) has all four fields and passes
    [validate_message]; every constructor with a fixed tag (all but the
    acknowledgement and the response constructors) uses a tag of
    SUPPORTED_MESSAGE_TYPES; the response constructor's tag is exactly the
    caller's [response_type]. *)
Theorem constructors_valid_and_cataloged :
  (forall m t ts mid d, Protocol.envelope m t ts mid d -> Protocol.validate_message m = true) /\
  (forall m t ts mid d, Protocol.fixed_tag_envelope m t ts mid d ->
     In t Protocol.SUPPORTED_MESSAGE_TYPES) /\
  (forall ts mid o rt rd,
     Protocol.parse_message_type (Protocol.create_response_message ts mid o rt rd) = Py.VStr rt).
Proof.
  split; [|split].
  - intros m t ts mid d Henv. destruct Henv as [m t ts mid d Hf | | ]; [destruct Hf|..];
      reflexivity.
  - intros m t ts mid d Hf. destruct Hf; vm_compute; tauto.
  - reflexivity.
Qed.

Lemma constructors_valid_and_cataloged_witness :
  Protocol.validate_message (Protocol.create_acknowledgement_message "ts"%string "mid"%string "m-1"%string) = true /\
  In Protocol.DEPOSIT_REQUEST Protocol.SUPPORTED_MESSAGE_TYPES.
Proof.
  split.
  - apply (proj1 constructors_valid_and_cataloged _ "acknowledgement"%string "ts"%string "mid"%string _
             (Protocol.env_ack "ts"%string "mid"%string "m-1"%string)).
  - apply (proj1 (proj2 constructors_valid_and_cataloged) _ _ "ts"%string "mid"%string _
             (Protocol.env_deposit "ts"%string "mid"%string "escrow_1"%string [] "0x"%string)).
Defined.

(** ** C4: fee computation *)

(** C4 (counterexample). The fees are not exact and do not add up to the
    amount within the 18-digit rendering: for amount 2^60 =
    "1152921504606846976" with fees 1.0 and 0.0, the platform fee is
    rendered as 11529215046068470 (the exact 1% is 11529215046068469.76)
    and the net amount as 1141392289560778496, so the three parts add up to
    10 less than the amount. *)
Lemma fee_split_not_exact :
  ~ SpecSide.exact_fee_split "1152921504606846976" (F64.of_decimal false 1 0) (S754_zero false).
Proof.
  unfold SpecSide.exact_fee_split. intro H.
  refine (_ (H _ _ _ _ _ _ _ _ _ _ _ _ _ _ _)); cycle 1.
  1-8: cbv; try reflexivity; try discriminate.
  intros [_ [_ [_ Habs]]]. cbv in Habs. apply Habs. reflexivity.
Qed.

(** C4 (amended). [calculate_fees] computes in IEEE binary64: for an
    amount string that parses to the double [x], the four outputs are the
    18-digit renderings of [x], [x * (p / 100)], [x * (a / 100)] and
    [(x - platform_fee) - arbiter_fee], each operation rounded to nearest;
    on "100" with the default fees 0.5 and 1.0 the net amount is
    "98.500000000000000000". *)
Theorem calculate_fees_binary64 :
  (forall (A : string) (x p a : F64.float),
     F64.of_string A = Some x ->
     let platform_fee := F64.mul x (F64.div p Utils.hundred) in
     let arbiter_fee := F64.mul x (F64.div a Utils.hundred) in
     Utils.calculate_fees A p a =
       inr [("total", Py.VStr (F64.format_fixed 18 x));
            ("platform_fee", Py.VStr (F64.format_fixed 18 platform_fee));
            ("arbiter_fee", Py.VStr (F64.format_fixed 18 arbiter_fee));
            ("net_amount",
              Py.VStr (F64.format_fixed 18 (F64.sub (F64.sub x platform_fee) arbiter_fee)))]%string)
  /\ Utils.calculate_fees "100" Utils.default_platform_fee Utils.default_arbiter_fee =
       inr [("total", Py.VStr "100.000000000000000000");
            ("platform_fee", Py.VStr "0.500000000000000000");
            ("arbiter_fee", Py.VStr "1.000000000000000000");
            ("net_amount", Py.VStr "98.500000000000000000")]%string.
Proof.
  split.
  - intros A x p a Hx. unfold Utils.calculate_fees, Utils.float_of_str. rewrite Hx.
    reflexivity.
  - vm_compute. reflexivity.
Qed.

Lemma calculate_fees_binary64_witness :
  Utils.calculate_fees "2.5" Utils.default_platform_fee Utils.default_arbiter_fee =
    inr [("total", Py.VStr (F64.format_fixed 18 (F64.of_decimal false 25 (-1))));
         ("platform_fee", Py.VStr (F64.format_fixed 18
            (F64.mul (F64.of_decimal false 25 (-1))
               (F64.div Utils.default_platform_fee Utils.hundred))));
         ("arbiter_fee", Py.VStr (F64.format_fixed 18
            (F64.mul (F64.of_decimal false 25 (-1))
               (F64.div Utils.default_arbiter_fee Utils.hundred))));
         ("net_amount", Py.VStr (F64.format_fixed 18
            (F64.sub (F64.sub (F64.of_decimal false 25 (-1))
               (F64.mul (F64.of_decimal false 25 (-1))
                  (F64.div Utils.default_platform_fee Utils.hundred)))
               (F64.mul (F64.of_decimal false 25 (-1))
                  (F64.div Utils.default_arbiter_fee Utils.hundred)))))]%string.
Proof.
  apply (proj1 calculate_fees_binary64 "2.5" (F64.of_decimal false 25 (-1))).
  vm_compute. reflexivity.
Defined.

(** ** C5: invalid amounts *)

(** C5. [format_amount] and [calculate_fees] never raise for a string
    amount; when the amount does not parse as a float, [format_amount]
    returns "0.0" and [calculate_fees] returns the all-"0.0" result. *)
Theorem invalid_amount_yields_zero :
  forall (amount : string) (decimals : Z) (p a : F64.float),
    (exists r, Utils.format_amount amount decimals = inr r) /\
    (exists out, Utils.calculate_fees amount p a = inr out) /\
    (F64.of_string amount = None ->
       Utils.format_amount amount decimals = inr "0.0"%string /\
       Utils.calculate_fees amount p a = inr Utils.zero_fees).
Proof.
  intros amount decimals p a.
  unfold Utils.format_amount, Utils.calculate_fees, Utils.float_of_str.
  destruct (F64.of_string amount) as [x|]; cbn.
  - split; [|split; [eexists; reflexivity | discriminate]].
    unfold Utils.format_f. destruct (decimals <? 0)%Z; eexists; reflexivity.
  - repeat split; eexists; reflexivity.
Qed.

Lemma invalid_amount_yields_zero_witness :
  Utils.format_amount "12 ETH" 18 = inr "0.0"%string /\
  Utils.calculate_fees "12 ETH" Utils.default_platform_fee Utils.default_arbiter_fee
    = inr Utils.zero_fees.
Proof.
  apply (proj2 (proj2 (invalid_amount_yields_zero "12 ETH" 18
           Utils.default_platform_fee Utils.default_arbiter_fee))).
  vm_compute. reflexivity.
Defined.

(** ** C6: the fee-split invariant and validation *)

(** C6 (counterexample). [validate_escrow_data] accepts a datum whose fees
    add up to 110: the error list of [sample_escrow] (platform fee 60.0,
    arbiter fee 50.0) at time 1000 is empty. *)
Lemma fee_split_not_validated :
  ~ (forall now (d : Models.EscrowData) t,
       Models.terms d = Some t -> SpecSide.fee_split_violated t = true ->
       Utils.validate_escrow_data now d <> []).
Proof.
  intro H.
  apply (H 1000 SpecSide.sample_escrow
           (Models.mkEscrowTerms "Swap 1 ETH for 1 ETH" 2000 None 24
              (F64.of_decimal false 500 (-1)) (F64.of_decimal false 600 (-1))));
    vm_compute; reflexivity.
Qed.

(** C6 (amended). [validate_escrow_data] does not look at the fee
    percentages: replacing them by any others leaves the error list
    unchanged, so a datum whose fees add up to 100 or more is accepted
    whenever its addresses, id, assets, description and deadline are. *)
Theorem validate_ignores_fees :
  forall now (d : Models.EscrowData) (pf af : F64.float),
    Utils.validate_escrow_data now (SpecSide.with_fees d pf af)
    = Utils.validate_escrow_data now d.
Proof.
  intros now d pf af. destruct d as [? ? ? ? ? ? ? ? ? ? [t|] ]; reflexivity.
Qed.

(** ** C1: out-of-order commands against the registry *)

(** C1. For every escrow [id] of the registry and every command that the
    transition graph does not allow in the escrow's current status, the
    registry answers [InvalidStateError] and the registry, hence the status,
    is left exactly as it was: no partial update and no silent no-op. *)
Theorem illegal_command_invalid_state :
  forall now (reg : Registry.registry) id (e : Models.EscrowData) (c : Registry.Command),
    Registry.lookup reg id = Some e ->
    SpecSide.claim_legal (Models.status e) c = false ->
    Registry.apply_command now reg id c = (inl Registry.InvalidStateError, reg).
Proof.
  intros now reg id e c Hlook Hillegal.
  unfold Registry.apply_command. rewrite Hlook.
  destruct (Models.status e), c as [? ?| |? ? ?|[]|]; cbn in Hillegal |- *;
    congruence.
Qed.

(** Scenario C: confirming fulfillment of an escrow still awaiting its
    deposit. *)
Lemma illegal_command_invalid_state_witness :
  Registry.apply_command 1500 [("escrow_0000000001", SpecSide.sample_escrow)]
    "escrow_0000000001" Registry.ConfirmFulfillment
  = (inl Registry.InvalidStateError, [("escrow_0000000001", SpecSide.sample_escrow)]).
Proof.
  apply (illegal_command_invalid_state 1500 _ _ SpecSide.sample_escrow).
  - reflexivity.
  - reflexivity.
Defined.

(** ** C9: the oracle's verification call *)

(** C9. [verify_transaction_with_ai] never raises, whatever the API key,
    the HTTP layer, the JSON decoder and the transaction data: it always
    returns a value, and that value is a failure result (verified False,
    confidence 0.0) unless the key is configured, the request returned a
    response with a non-error status, the body decoded to JSON, the
    choices[0].message.content path exists and holds a string, and that
    string decoded to JSON, in which case the decoded value is returned. *)
Theorem verify_never_raises :
  forall key post loads py_str (transaction_data : Py.dict),
    exists r,
      Oracle.verify_transaction_with_ai key post loads py_str transaction_data = inr r /\
      ((exists msg, r = Oracle.failure msg) \/
       (exists k resp result s,
          key = Some k /\ k <> "" /\
          post Oracle.ASI_ONE_URL (Oracle.headers k)
            (Oracle.request_body py_str transaction_data) = inr resp /\
          Oracle.raise_for_status resp = inr tt /\
          Oracle.response_json loads resp = inr result /\
          Oracle.ai_content result = inr (Py.VStr s) /\
          loads s = Some r)).
Proof.
  intros key post loads py_str td.
  unfold Oracle.verify_transaction_with_ai.
  destruct key as [k|].
  2: { eexists; split; [reflexivity | left; eexists; reflexivity]. }
  destruct (Py.str_empty k) eqn:Hk.
  { eexists; split; [reflexivity | left; eexists; reflexivity]. }
  cbn [Py.try_except Py.bind].
  destruct (post Oracle.ASI_ONE_URL (Oracle.headers k) (Oracle.request_body py_str td))
    as [ex|resp] eqn:Hpost; cbn.
  { eexists; split; [reflexivity | left; eexists; reflexivity]. }
  destruct (Oracle.raise_for_status resp) as [ex|[]] eqn:Hst; cbn.
  { eexists; split; [reflexivity | left; eexists; reflexivity]. }
  destruct (Oracle.response_json loads resp) as [ex|result] eqn:Hjs; cbn.
  { eexists; split; [reflexivity | left; eexists; reflexivity]. }
  destruct (Oracle.ai_content result) as [ex|content] eqn:Hc; cbn.
  { eexists; split; [reflexivity | left; eexists; reflexivity]. }
  unfold Oracle.loads.
  destruct content as [| | | | s | |]; cbn;
    try (eexists; split; [reflexivity | left; eexists; reflexivity]).
  destruct (loads s) as [v|] eqn:Hl; cbn.
  - eexists; split; [reflexivity|]. right.
    exists k, resp, result, s. repeat split; auto.
    intro E. apply String.eqb_eq in E. unfold Py.str_empty in Hk. congruence.
  - eexists; split; [reflexivity | left; eexists; reflexivity].
Qed.

Lemma verify_never_raises_witness :
  exists r,
    Oracle.verify_transaction_with_ai (Some "key-1")
      (fun _ _ _ => inl (Py.RequestException "connection timed out"))
      (fun _ => None) (fun _ => "") [] = inr r /\
    ((exists msg, r = Oracle.failure msg) \/
     (exists k resp result s,
        Some "key-1" = Some k /\ k <> "" /\
        (fun (_ : string) (_ _ : Py.dict) => @inl Py.exn Oracle.response
            (Py.RequestException "connection timed out"))
          Oracle.ASI_ONE_URL (Oracle.headers k)
          (Oracle.request_body (fun _ => "") []) = inr resp /\
        Oracle.raise_for_status resp = inr tt /\
        Oracle.response_json (fun _ => None) resp = inr result /\
        Oracle.ai_content result = inr (Py.VStr s) /\
        (fun _ : string => @None Py.value) s = Some r)).
Proof.
  apply (verify_never_raises (Some "key-1")
           (fun _ _ _ => inl (Py.RequestException "connection timed out"))
           (fun _ => None) (fun _ => "") []).
Defined.

(* ================================================================== *)
(** * Further properties of the code *)

(** ** Helper lemmas *)

Lemma N_to_uint_not_nil (n : N) : N.to_uint n <> Decimal.Nil.
Proof.
  intro H. pose proof (DecimalN.Unsigned.of_to n) as E. rewrite H in E.
  simpl in E. subst n. discriminate H.
Qed.

Lemma digits_of_Z_head (z : Z) :
  exists c r, F64.digits_of_Z z = String c r /\ Py.is_digit c = true.
Proof.
  unfold F64.digits_of_Z. pose proof (N_to_uint_not_nil (Z.to_N z)) as H.
  destruct (N.to_uint (Z.to_N z)); try congruence; do 2 eexists; split; reflexivity.
Qed.

Lemma digits_of_Z_zero (z : Z) : (0 <= z)%Z -> F64.digits_of_Z z = "0" -> z = 0%Z.
Proof.
  intros Hz H. unfold F64.digits_of_Z in H.
  pose proof (NilEmpty.usu (N.to_uint (Z.to_N z))) as U. rewrite H in U.
  simpl in U. injection U as U.
  pose proof (DecimalN.Unsigned.of_to (Z.to_N z)) as E. rewrite <- U in E.
  simpl in E. lia.
Qed.

Lemma substring_length (s : string) (n m : nat) :
  (n + m <= String.length s)%nat -> String.length (substring n m s) = m.
Proof.
  revert n m. induction s as [|c s IH]; intros n m H; simpl in *.
  - assert (n = 0 /\ m = 0)%nat as [-> ->] by lia. reflexivity.
  - destruct n as [|n].
    + destruct m as [|m]; [reflexivity|]. simpl. f_equal. apply IH. lia.
    + apply IH. lia.
Qed.

Lemma str_append_nil (s : string) : s ++ "" = s.
Proof. induction s as [|c s IH]; simpl; [|rewrite IH]; reflexivity. Qed.

Lemma str_length_append (s t : string) :
  String.length (s ++ t) = (String.length s + String.length t)%nat.
Proof. induction s as [|c s IH]; simpl; [|rewrite IH]; reflexivity. Qed.

Lemma substring_full (s : string) : substring 0 (String.length s) s = s.
Proof. induction s as [|c s IH]; simpl; [|rewrite IH]; reflexivity. Qed.

Lemma str_int_nonneg (z : Z) : (0 <= z)%Z -> UtilsMore.str_int z = F64.digits_of_Z z.
Proof. intros H. unfold UtilsMore.str_int. destruct (Z.ltb_spec z 0); [lia | reflexivity]. Qed.

(** ** [calculate_time_remaining] and [format_time_remaining] *)

Lemma time_split (r : Z) : (0 < r)%Z ->
  (r / 86400 * 86400 + (r mod 86400) / 3600 * 3600 + (r mod 3600) / 60 * 60 + r mod 60 = r
   /\ 0 <= r / 86400 /\ 0 <= (r mod 86400) / 3600 < 24
   /\ 0 <= (r mod 3600) / 60 < 60 /\ 0 <= r mod 60 < 60)%Z.
Proof.
  intros H.
  assert (E : (r mod 3600 = (r mod 86400) mod 3600)%Z).
  { replace 86400%Z with (3600 * 24)%Z by reflexivity.
    rewrite Z.rem_mul_r by lia. rewrite (Z.mul_comm 3600), Z_mod_plus_full, Z.mod_mod by lia.
    reflexivity. }
  rewrite E. clear E.
  pose proof (Z.div_mod r 86400 ltac:(lia)) as D1.
  pose proof (Z.mod_pos_bound r 86400 ltac:(lia)) as B1.
  set (a := (r mod 86400)%Z) in *.
  pose proof (Z.div_mod a 3600 ltac:(lia)) as D2.
  pose proof (Z.mod_pos_bound a 3600 ltac:(lia)) as B2.
  set (b := (a mod 3600)%Z) in *.
  pose proof (Z.div_mod b 60 ltac:(lia)) as D3.
  pose proof (Z.mod_pos_bound b 60 ltac:(lia)) as B3.
  assert (E60 : (r mod 60 = b mod 60)%Z).
  { rewrite D1 at 1. rewrite D2 at 1.
    replace (86400 * (r / 86400) + (3600 * (a / 3600) + b))%Z
      with (b + (1440 * (r / 86400) + 60 * (a / 3600)) * 60)%Z by ring.
    apply Z_mod_plus_full. }
  rewrite E60.
  assert (0 <= r / 86400)%Z by (apply Z.div_pos; lia).
  assert (0 <= a / 3600 < 24)%Z.
  { split; [apply Z.div_pos; lia|]. apply Z.div_lt_upper_bound; lia. }
  assert (0 <= b / 60 < 60)%Z.
  { split; [apply Z.div_pos; lia|]. apply Z.div_lt_upper_bound; lia. }
  lia.
Qed.

Lemma part_ne_0s (x : Z) (u : ascii) (t : string) :
  (0 < x)%Z -> (UtilsMore.str_int x ++ String u EmptyString) ++ t <> "0s".
Proof.
  intros Hx E. rewrite str_int_nonneg in E by lia.
  destruct (digits_of_Z_head x) as (c & r & Hc & _). rewrite Hc in E.
  simpl in E. injection E as Ec E.
  destruct r as [|c' r'].
  - simpl in E. injection E as Eu Et. subst.
    apply (digits_of_Z_zero x) in Hc; lia.
  - simpl in E. injection E as _ E. destruct r'; discriminate E.
Qed.

Lemma head_digit_ne_0s (x : Z) (u : ascii) (t : string) : (0 < x)%Z ->
  exists c r, (UtilsMore.str_int x ++ String u EmptyString) ++ t = String c r
    /\ Py.is_digit c = true
    /\ (UtilsMore.str_int x ++ String u EmptyString) ++ t <> "0s".
Proof.
  intros Hx. pose proof (part_ne_0s x u t Hx) as N.
  rewrite str_int_nonneg in * by lia.
  destruct (digits_of_Z_head x) as (c & r & Hc & Hd). rewrite Hc in *.
  exists c, ((r ++ String u EmptyString) ++ t). auto.
Qed.

Lemma concat_parts (x : Z) (u : ascii) (l : list string) :
  String.concat " " ((UtilsMore.str_int x ++ String u EmptyString) :: l)
  = (UtilsMore.str_int x ++ String u EmptyString)
    ++ match l with [] => "" | _ => " " ++ String.concat " " l end.
Proof. destruct l; simpl; [rewrite str_append_nil|]; reflexivity. Qed.

Lemma format_time_remaining_live (current_time deadline : Z) :
  (current_time < deadline)%Z ->
  exists c r, UtilsMore.format_time_remaining current_time deadline = String c r
    /\ Py.is_digit c = true
    /\ UtilsMore.format_time_remaining current_time deadline <> "0s".
Proof.
  intros H. unfold UtilsMore.format_time_remaining, UtilsMore.calculate_time_remaining.
  replace (deadline - current_time <=? 0)%Z with false by (symmetry; apply Z.leb_gt; lia).
  destruct (time_split (deadline - current_time) ltac:(lia)) as (Ht & B).
  unfold UtilsMore.int_at, UtilsMore.truthy_at. cbv zeta. simpl.
  set (r := (deadline - current_time)%Z) in *.
  set (dd := (r / 86400)%Z) in *. set (hh := (r mod 86400 / 3600)%Z) in *.
  set (mm := (r mod 3600 / 60)%Z) in *. set (ss := (r mod 60)%Z) in *.
  destruct (Z.ltb_spec 0 dd); destruct (Z.ltb_spec 0 hh);
  destruct (Z.ltb_spec 0 mm); destruct (Z.ltb_spec 0 ss);
  cbn [app];
  first [ rewrite concat_parts; apply head_digit_ne_0s; assumption
        | exfalso; lia ].
Qed.

(** [calculate_time_remaining] on a deadline still ahead: [total_seconds]
    is the remaining time, [expired] is false, and days, hours, minutes and
    seconds are its mixed-radix decomposition, with hours below 24 and
    minutes and seconds below 60. *)
Theorem calculate_time_remaining_decomposes (current_time deadline : Z)
  (H : (current_time < deadline)%Z) :
  exists days hours minutes seconds,
    UtilsMore.calculate_time_remaining current_time deadline =
      [("total_seconds", Py.VInt (deadline - current_time)); ("days", Py.VInt days);
       ("hours", Py.VInt hours); ("minutes", Py.VInt minutes);
       ("seconds", Py.VInt seconds); ("expired", Py.VBool false)]
    /\ (days * 86400 + hours * 3600 + minutes * 60 + seconds = deadline - current_time)%Z
    /\ (0 <= days)%Z /\ (0 <= hours < 24)%Z /\ (0 <= minutes < 60)%Z
    /\ (0 <= seconds < 60)%Z.
Proof.
  unfold UtilsMore.calculate_time_remaining.
  replace (deadline - current_time <=? 0)%Z with false by (symmetry; apply Z.leb_gt; lia).
  destruct (time_split (deadline - current_time) ltac:(lia)) as (Ht & B).
  do 4 eexists. split; [reflexivity|]. exact (conj Ht B).
Qed.

Lemma calculate_time_remaining_decomposes_witness :
  exists days hours minutes seconds,
    UtilsMore.calculate_time_remaining 0 90061 =
      [("total_seconds", Py.VInt 90061); ("days", Py.VInt days);
       ("hours", Py.VInt hours); ("minutes", Py.VInt minutes);
       ("seconds", Py.VInt seconds); ("expired", Py.VBool false)]
    /\ (days * 86400 + hours * 3600 + minutes * 60 + seconds = 90061 - 0)%Z
    /\ (0 <= days)%Z /\ (0 <= hours < 24)%Z /\ (0 <= minutes < 60)%Z
    /\ (0 <= seconds < 60)%Z.
Proof. apply (calculate_time_remaining_decomposes 0 90061). lia. Defined.

(** [format_time_remaining] answers ["Expired"] exactly when the deadline is
    not after the current time; a deadline still ahead is rendered
    otherwise. *)
Theorem format_time_remaining_expired_iff (current_time deadline : Z) :
  UtilsMore.format_time_remaining current_time deadline = "Expired"
  <-> (deadline <= current_time)%Z.
Proof.
  split.
  - intros E. destruct (Z_lt_le_dec current_time deadline) as [Hlt|Hle]; [|exact Hle].
    destruct (format_time_remaining_live current_time deadline Hlt) as (c & r & Hs & Hd & _).
    rewrite Hs in E. injection E as Ec _. subst c. discriminate Hd.
  - intros Hle. unfold UtilsMore.format_time_remaining, UtilsMore.calculate_time_remaining.
    replace (deadline - current_time <=? 0)%Z with true by (symmetry; apply Z.leb_le; lia).
    reflexivity.
Qed.

(** The ["0s"] fallback of [format_time_remaining] is never returned: a
    deadline still ahead always has a positive day, hour, minute or second
    part, and a past one gives ["Expired"]. *)
Theorem format_time_remaining_never_0s (current_time deadline : Z) :
  UtilsMore.format_time_remaining current_time deadline <> "0s".
Proof.
  destruct (Z_lt_le_dec current_time deadline) as [Hlt|Hle].
  - destruct (format_time_remaining_live current_time deadline Hlt) as (_ & _ & _ & _ & N).
    exact N.
  - apply format_time_remaining_expired_iff in Hle. rewrite Hle. discriminate.
Qed.

(** ** [format_address] and the generated identifiers *)

Lemma py_slice_prefix (s : string) (n : Z) :
  (0 <= n <= Z.of_nat (String.length s))%Z ->
  UtilsMore.py_slice s 0 n = substring 0 (Z.to_nat n) s.
Proof.
  intros H. unfold UtilsMore.py_slice, UtilsMore.norm_index. simpl.
  destruct (Z.ltb_spec n 0); [lia|]. rewrite Z.min_l by lia.
  f_equal. lia.
Qed.

Lemma py_slice_suffix (s : string) (n : Z) :
  (0 < n <= Z.of_nat (String.length s))%Z ->
  UtilsMore.py_slice s (- n) (Z.of_nat (String.length s))
  = substring (String.length s - Z.to_nat n) (Z.to_nat n) s.
Proof.
  intros H. unfold UtilsMore.py_slice, UtilsMore.norm_index.
  destruct (Z.ltb_spec (- n) 0); [|lia].
  rewrite Z.max_r by lia.
  destruct (Z.ltb_spec (Z.of_nat (String.length s)) 0); [lia|].
  rewrite Z.min_id. f_equal; lia.
Qed.

(** [format_address] with a positive [length] on an address of at least
    [2 * length + 2] characters shows its first and last [length]
    characters around ["..."], [2 * length + 3] characters in all. *)
Theorem format_address_long (address : string) (length : Z)
  (Hlen : (0 < length)%Z)
  (Hlong : (2 * length + 2 <= Z.of_nat (String.length address))%Z) :
  UtilsMore.format_address address length =
    substring 0 (Z.to_nat length) address ++ "..."
    ++ substring (String.length address - Z.to_nat length) (Z.to_nat length) address
  /\ Z.of_nat (String.length (UtilsMore.format_address address length)) = (2 * length + 3)%Z.
Proof.
  assert (E : UtilsMore.format_address address length =
    substring 0 (Z.to_nat length) address ++ "..."
    ++ substring (String.length address - Z.to_nat length) (Z.to_nat length) address).
  { unfold UtilsMore.format_address.
    replace (Py.str_empty address) with false
      by (destruct address; [cbn [String.length Z.of_nat] in Hlong; lia | reflexivity]).
    replace (Z.of_nat (String.length address) <? length * 2 + 2)%Z with false
      by (symmetry; apply Z.ltb_ge; lia).
    simpl. rewrite py_slice_prefix, py_slice_suffix by lia. reflexivity. }
  split; [exact E|]. rewrite E, !str_length_append.
  rewrite !substring_length by lia. change (String.length "...") with 3%nat. lia.
Qed.

Lemma format_address_long_witness :
  UtilsMore.format_address ("0x" ++ F64.repeat_char "a" 40) 8 =
    substring 0 (Z.to_nat 8) ("0x" ++ F64.repeat_char "a" 40) ++ "..."
    ++ substring (String.length ("0x" ++ F64.repeat_char "a" 40) - Z.to_nat 8) (Z.to_nat 8)
         ("0x" ++ F64.repeat_char "a" 40)
  /\ Z.of_nat (String.length (UtilsMore.format_address ("0x" ++ F64.repeat_char "a" 40) 8))
     = (2 * 8 + 3)%Z.
Proof. apply format_address_long; vm_compute; [reflexivity | discriminate]. Defined.

(** With [length = 0], [address[-0:]] is the whole address, so every
    address of two or more characters is displayed in full after ["..."]
    instead of being shortened. *)
Theorem format_address_zero_length (address : string)
  (H : (2 <= String.length address)%nat) :
  UtilsMore.format_address address 0 = "..." ++ address.
Proof.
  unfold UtilsMore.format_address.
  replace (Py.str_empty address) with false by (destruct address; [simpl in H; lia | reflexivity]).
  replace (Z.of_nat (String.length address) <? 0 * 2 + 2)%Z with false
    by (symmetry; apply Z.ltb_ge; lia).
  unfold UtilsMore.py_slice, UtilsMore.norm_index. simpl.
  destruct (Z.ltb_spec (Z.of_nat (String.length address)) 0); [lia|].
  rewrite Z.min_id, Z.min_l by lia. simpl.
  replace (Z.to_nat (Z.of_nat (String.length address) - 0)) with (String.length address) by lia.
  rewrite substring_full. destruct address; reflexivity.
Qed.

Lemma format_address_zero_length_witness :
  UtilsMore.format_address "0x1234" 0 = "..." ++ "0x1234".
Proof. apply format_address_zero_length. simpl. lia. Defined.

(** ** [validate_escrow_data] *)

Lemma validate_escrow_data_pieces (now : Z) (e : Models.EscrowData) :
  Utils.validate_escrow_data now e = (
    (if negb (Utils.validate_address (Models.buyer_address e))
     then ["Invalid buyer address"] else [])
    ++ (if negb (Utils.validate_address (Models.seller_address e))
        then ["Invalid seller address"] else [])
    ++ (if negb (Utils.validate_address (Models.arbiter_address e))
        then ["Invalid arbiter address"] else [])
    ++ (if Py.str_empty (Models.escrow_id e) || (String.length (Models.escrow_id e) <? 10)%nat
        then ["Invalid escrow ID"] else [])
    ++ (match Models.asset_a e with
        | None => ["Asset A is required"]
        | Some a => if Py.str_empty (Models.amount a) then ["Asset A is required"] else []
        end)
    ++ (match Models.asset_b e with
        | None => ["Asset B is required"]
        | Some a => if Py.str_empty (Models.amount a) then ["Asset B is required"] else []
        end)
    ++ (match Models.terms e with
        | None => ["Escrow description is required"]
        | Some t => if Py.str_empty (Models.description t)
                    then ["Escrow description is required"] else []
        end)
    ++ (match Models.terms e with
        | Some t => if (Models.deadline t <=? now)%Z
                    then ["Deadline must be in the future"] else []
        | None => []
        end))%list.
Proof.
  assert (S : forall (b : bool) (l : list string) (m : string),
    ((if b then l ++ [m] else l) = l ++ (if b then [m] else []))%list)
    by (intros [|] l m; [reflexivity | symmetry; apply app_nil_r]).
  assert (SA : forall (o : option Models.Asset) (l : list string) (m : string),
    (match o with None => l ++ [m] | Some a => if Py.str_empty (Models.amount a) then l ++ [m] else l end
    = l ++ match o with None => [m] | Some a => if Py.str_empty (Models.amount a) then [m] else [] end)%list)
    by (intros [a|] l m; [apply S | reflexivity]).
  assert (SD : forall (o : option Models.EscrowTerms) (l : list string) (m : string),
    (match o with None => l ++ [m] | Some t => if Py.str_empty (Models.description t) then l ++ [m] else l end
    = l ++ match o with None => [m] | Some t => if Py.str_empty (Models.description t) then [m] else [] end)%list)
    by (intros [t|] l m; [apply S | reflexivity]).
  assert (SF : forall (o : option Models.EscrowTerms) (l : list string) (m : string),
    (match o with Some t => if (Models.deadline t <=? now)%Z then l ++ [m] else l | None => l end
    = l ++ match o with Some t => if (Models.deadline t <=? now)%Z then [m] else [] | None => [] end)%list)
    by (intros [t|] l m; [apply S | symmetry; apply app_nil_r]).
  unfold Utils.validate_escrow_data. cbv zeta.
  rewrite ?S, ?SA, ?SD, ?SF. rewrite <- !app_assoc. reflexivity.
Qed.

Lemma in_existsb (x : string) (l : list string) : In x l <-> existsb (String.eqb x) l = true.
Proof.
  rewrite existsb_exists. split.
  - intros H. exists x. rewrite String.eqb_refl. auto.
  - intros [y [H E]]. apply String.eqb_eq in E. subst. exact H.
Qed.

Lemma existsb_if {A} (f : A -> bool) (b : bool) (l1 l2 : list A) :
  existsb f (if b then l1 else l2) = if b then existsb f l1 else existsb f l2.
Proof. destruct b; reflexivity. Qed.

Lemma if_same_bool (b x : bool) : (if b then x else x) = x.
Proof. destruct b; reflexivity. Qed.

Lemma if_tf (b : bool) : (if b then true else false) = b.
Proof. destruct b; reflexivity. Qed.

Lemma str_empty_true (s : string) : Py.str_empty s = true <-> s = "".
Proof. unfold Py.str_empty. apply String.eqb_eq. Qed.

Lemma escrow_id_check (s : string) :
  (Py.str_empty s || (String.length s <? 10)%nat) = (String.length s <? 10)%nat.
Proof. destruct s; reflexivity. Qed.

(** [validate_escrow_data] never stops at the first failed check: each of
    its eight messages is in the returned list exactly when its own rule is
    violated, whatever the other fields hold. *)
Theorem validate_escrow_data_rules (now : Z) (e : Models.EscrowData) :
  let errs := Utils.validate_escrow_data now e in
  (In "Invalid buyer address" errs <-> Utils.validate_address (Models.buyer_address e) = false)
  /\ (In "Invalid seller address" errs <-> Utils.validate_address (Models.seller_address e) = false)
  /\ (In "Invalid arbiter address" errs <-> Utils.validate_address (Models.arbiter_address e) = false)
  /\ (In "Invalid escrow ID" errs <-> (String.length (Models.escrow_id e) < 10)%nat)
  /\ (In "Asset A is required" errs <->
        match Models.asset_a e with None => True | Some a => Models.amount a = "" end)
  /\ (In "Asset B is required" errs <->
        match Models.asset_b e with None => True | Some a => Models.amount a = "" end)
  /\ (In "Escrow description is required" errs <->
        match Models.terms e with None => True | Some t => Models.description t = "" end)
  /\ (In "Deadline must be in the future" errs <->
        exists t, Models.terms e = Some t /\ (Models.deadline t <= now)%Z).
Proof.
  cbv zeta.
  repeat match goal with |- (_ <-> _) /\ _ => split end;
  rewrite in_existsb, validate_escrow_data_pieces, escrow_id_check, !existsb_app;
  destruct (Models.asset_a e) as [a|], (Models.asset_b e) as [b|], (Models.terms e) as [t|];
  rewrite ?existsb_if; cbn [existsb]; cbv [String.eqb Ascii.eqb Bool.eqb];
  rewrite ?if_same_bool, ?if_tf, ?orb_false_r, ?orb_false_l;
  first
    [ apply negb_true_iff
    | apply Nat.ltb_lt
    | apply str_empty_true
    | split; [intros _; exact I | reflexivity]
    | split; [intros H; eexists; split; [reflexivity | apply Z.leb_le; exact H]
             | intros [t0 [E H]]; injection E as <-; apply Z.leb_le; exact H]
    | split; [discriminate | intros [t0 [E _]]; discriminate E] ].
Qed.

(** [validate_escrow_data] returns the empty list exactly when the three
    addresses are valid, the escrow id has at least 10 characters, both
    assets are present with a non-empty amount, and the terms are present
    with a non-empty description and a deadline after [now]. *)
Theorem validate_escrow_data_accepts_iff (now : Z) (e : Models.EscrowData) :
  Utils.validate_escrow_data now e = [] <->
    Utils.validate_address (Models.buyer_address e) = true
    /\ Utils.validate_address (Models.seller_address e) = true
    /\ Utils.validate_address (Models.arbiter_address e) = true
    /\ (10 <= String.length (Models.escrow_id e))%nat
    /\ (exists a, Models.asset_a e = Some a /\ Models.amount a <> "")
    /\ (exists b, Models.asset_b e = Some b /\ Models.amount b <> "")
    /\ (exists t, Models.terms e = Some t /\ Models.description t <> ""
                  /\ (now < Models.deadline t)%Z).
Proof.
  rewrite validate_escrow_data_pieces, escrow_id_check.
  destruct (Utils.validate_address (Models.buyer_address e)),
    (Utils.validate_address (Models.seller_address e)),
    (Utils.validate_address (Models.arbiter_address e)); simpl;
  try (split; [discriminate | intros (H & _); discriminate H]);
  try (split; [discriminate | intros (_ & H & _); discriminate H]);
  try (split; [discriminate | intros (_ & _ & H & _); discriminate H]).
  destruct (Nat.ltb_spec (String.length (Models.escrow_id e)) 10); simpl;
  [split; [discriminate | intros (_ & _ & _ & H' & _); lia]|].
  destruct (Models.asset_a e) as [a|];
  [|split; [discriminate | intros (_ & _ & _ & _ & [a [E _]] & _); discriminate E]].
  destruct (Py.str_empty (Models.amount a)) eqn:Ea; simpl;
  [apply str_empty_true in Ea;
   split; [discriminate | intros (_ & _ & _ & _ & [a' [E N]] & _); injection E as <-; contradiction]|].
  destruct (Models.asset_b e) as [b|];
  [|split; [discriminate | intros (_ & _ & _ & _ & _ & [b [E _]] & _); discriminate E]].
  destruct (Py.str_empty (Models.amount b)) eqn:Eb; simpl;
  [apply str_empty_true in Eb;
   split; [discriminate | intros (_ & _ & _ & _ & _ & [b' [E N]] & _); injection E as <-; contradiction]|].
  destruct (Models.terms e) as [t|];
  [|split; [discriminate | intros (_ & _ & _ & _ & _ & _ & [t [E _]]); discriminate E]].
  destruct (Py.str_empty (Models.description t)) eqn:Ed; simpl;
  [apply str_empty_true in Ed;
   split; [discriminate | intros (_ & _ & _ & _ & _ & _ & [t' [E [N _]]]); injection E as <-; contradiction]|].
  destruct (Z.leb_spec (Models.deadline t) now); simpl;
  [split; [discriminate | intros (_ & _ & _ & _ & _ & _ & [t' [E [_ N]]]); injection E as <-; lia]|].
  assert (Na : Models.amount a <> "") by (intros E; apply str_empty_true in E; congruence).
  assert (Nb : Models.amount b <> "") by (intros E; apply str_empty_true in E; congruence).
  assert (Nd : Models.description t <> "") by (intros E; apply str_empty_true in E; congruence).
  split; [intros _ | reflexivity].
  repeat split; try reflexivity; try lia; eauto.
Qed.

(** ** Address and transaction-hash validation *)

Lemma hex_char_props (c : ascii) : SpecSide.is_hex_char c = true ->
  Py.is_space c = false /\ Ascii.eqb c "_" = false /\ Ascii.eqb c "x" = false
  /\ Ascii.eqb c "X" = false /\ c <> "+"%char /\ c <> "-"%char
  /\ exists d, Py.hex_digit_value c = Some d.
Proof.
  unfold SpecSide.is_hex_char. destruct (Py.hex_digit_value c) as [d|] eqn:E; [|discriminate].
  intros _. refine (conj _ (conj _ (conj _ (conj _ (conj _ (conj _ (ex_intro _ d eq_refl))))))); revert E;
  destruct c as [[] [] [] [] [] [] [] []]; vm_compute; intros E;
  first [discriminate E | reflexivity | intros F; discriminate F].
Qed.

Lemma scan_hex_all (cs : list ascii) (acc : Z) (nd : nat) :
  forallb SpecSide.is_hex_char cs = true ->
  exists v, Py.scan_hex cs false acc nd = Some (v, (nd + List.length cs)%nat, []).
Proof.
  revert acc nd. induction cs as [|c r IH]; intros acc nd H.
  - exists acc. simpl. rewrite Nat.add_0_r. reflexivity.
  - simpl in H. apply andb_prop in H as [Hc Hr].
    destruct (hex_char_props c Hc) as (_ & Hu & _ & _ & _ & _ & d & Hd).
    simpl. rewrite Hu, Hd. destruct (IH (acc * 16 + d)%Z (S nd) Hr) as [v Hv].
    exists v. rewrite Hv. simpl. rewrite Nat.add_succ_r. reflexivity.
Qed.

Lemma int_base16_all_hex (s : string) :
  s <> "" -> forallb SpecSide.is_hex_char (list_ascii_of_string s) = true ->
  exists v, Py.int_base16 s = Some v.
Proof.
  intros Hne H. destruct s as [|c r]; [congruence|].
  pose proof H as H'. simpl in H'. apply andb_prop in H' as [Hc _].
  destruct (hex_char_props c Hc) as (Hs & Hu & Hx & HX & Hp & Hm & _).
  destruct (scan_hex_all (list_ascii_of_string (String c r)) 0 0 H) as [v Hv].
  unfold Py.int_base16. simpl list_ascii_of_string in *. simpl Py.drop_spaces. rewrite Hs.
  assert (Py.split_sign (c :: list_ascii_of_string r) = (false, c :: list_ascii_of_string r)) as ->.
  { unfold Py.split_sign. destruct c as [[] [] [] [] [] [] [] []]; try reflexivity; congruence. }
  assert (Py.skip_hex_prefix (c :: list_ascii_of_string r) = c :: list_ascii_of_string r) as ->.
  { unfold Py.skip_hex_prefix. destruct c as [[] [] [] [] [] [] [] []]; try reflexivity.
    destruct (list_ascii_of_string r) as [|x l]; [reflexivity|].
    assert (Hx' : SpecSide.is_hex_char x = true)
      by (refine (proj1 (forallb_forall _ _) H x _); simpl; auto).
    destruct (hex_char_props x Hx') as (_ & _ & -> & -> & _). reflexivity. }
  destruct c as [[] [] [] [] [] [] [] []]; try discriminate Hu;
  cbv beta iota; rewrite Hv; simpl; eexists; reflexivity.
Qed.

Lemma validator_accepts (n : nat) (s : string) : (0 < n)%nat ->
  SpecSide.prefixed_hex n s = true ->
  Py.str_empty s = false /\
  (Py.startswith s "0x" && (String.length s =? n + 2)%nat) = true /\
  exists v, Py.int_base16 (Py.slice_from 2 s) = Some v.
Proof.
  unfold SpecSide.prefixed_hex. intros Hn H.
  apply andb_prop in H as [H Hx]. pose proof H as H0. apply andb_prop in H0 as [_ Hl].
  apply Nat.eqb_eq in Hl.
  refine (conj _ (conj H _)).
  - destruct s; [simpl in Hl; lia | reflexivity].
  - apply int_base16_all_hex; [|exact Hx].
    intros E. assert (L := substring_length s 2 (String.length s - 2) ltac:(lia)).
    unfold Py.slice_from in E. rewrite E in L. simpl in L. lia.
Qed.

(** Every string made of ["0x"] and exactly 40 hexadecimal characters is
    accepted by [validate_address]. *)
Theorem validate_address_accepts_prefixed_hex (address : string)
  (H : SpecSide.prefixed_hex 40 address = true) :
  Utils.validate_address address = true.
Proof.
  destruct (validator_accepts 40 address ltac:(lia) H) as (E & P & v & V).
  unfold Utils.validate_address. rewrite E. simpl Nat.add in P. rewrite P, V. reflexivity.
Qed.

Lemma validate_address_accepts_prefixed_hex_witness :
  SpecSide.prefixed_hex 40 "0x52908400098527886E0F7030069857D2E4169EE7" = true /\
  Utils.validate_address "0x52908400098527886E0F7030069857D2E4169EE7" = true.
Proof.
  split; [vm_compute; reflexivity|].
  apply validate_address_accepts_prefixed_hex. vm_compute. reflexivity.
Defined.

(** Every string made of ["0x"] and exactly 64 hexadecimal characters is
    accepted by [validate_transaction_hash]. *)
Theorem validate_transaction_hash_accepts_prefixed_hex (tx_hash : string)
  (H : SpecSide.prefixed_hex 64 tx_hash = true) :
  Utils.validate_transaction_hash tx_hash = true.
Proof.
  destruct (validator_accepts 64 tx_hash ltac:(lia) H) as (E & P & v & V).
  unfold Utils.validate_transaction_hash. rewrite E. simpl Nat.add in P. rewrite P, V. reflexivity.
Qed.

Lemma validate_transaction_hash_accepts_prefixed_hex_witness :
  SpecSide.prefixed_hex 64
    "0x88df016429689c079f3b2f6ad39fa052532c56795b733da78a91ebe6a713944b" = true /\
  Utils.validate_transaction_hash
    "0x88df016429689c079f3b2f6ad39fa052532c56795b733da78a91ebe6a713944b" = true.
Proof.
  split; [vm_compute; reflexivity|].
  apply validate_transaction_hash_accepts_prefixed_hex. vm_compute. reflexivity.
Defined.

(** ** Generated escrow identifiers against validation *)

Lemma py_slice_prefix_length (s : string) (n : Z) : (0 <= n)%Z ->
  String.length (UtilsMore.py_slice s 0 n) = Nat.min (Z.to_nat n) (String.length s).
Proof.
  intros H. unfold UtilsMore.py_slice, UtilsMore.norm_index. cbn [Z.ltb Z.compare].
  destruct (Z.ltb_spec n 0); [lia|].
  rewrite substring_length; lia.
Qed.

Lemma str_int_length (z : Z) : (1 <= String.length (UtilsMore.str_int z))%nat.
Proof.
  unfold UtilsMore.str_int. destruct (z <? 0)%Z; [simpl; lia|].
  destruct (digits_of_Z_head z) as (c & r & -> & _). simpl. lia.
Qed.

Lemma in_invalid_escrow_id (now : Z) (e : Models.EscrowData) :
  In "Invalid escrow ID" (Utils.validate_escrow_data now e)
  <-> (String.length (Models.escrow_id e) < 10)%nat.
Proof.
  rewrite in_existsb, validate_escrow_data_pieces, escrow_id_check, !existsb_app.
  destruct (Models.asset_a e) as [a|], (Models.asset_b e) as [b|], (Models.terms e) as [t|];
  rewrite ?existsb_if; cbn [existsb]; cbv [String.eqb Ascii.eqb Bool.eqb];
  rewrite ?if_same_bool, ?if_tf, ?orb_false_r, ?orb_false_l; apply Nat.ltb_lt.
Qed.

(** An escrow id made by [generate_escrow_id] from a non-empty digest has
    at least 10 characters, so [validate_escrow_data] never reports it as
    an invalid escrow id, whatever the timestamp. *)
Theorem generated_escrow_id_passes_validation (now timestamp : Z) (hexdigest : string)
  (e : Models.EscrowData)
  (Hd : (1 <= String.length hexdigest)%nat)
  (He : Models.escrow_id e = UtilsMore.generate_escrow_id timestamp hexdigest) :
  ~ In "Invalid escrow ID" (Utils.validate_escrow_data now e).
Proof.
  rewrite in_invalid_escrow_id, He. unfold UtilsMore.generate_escrow_id.
  rewrite !str_length_append, py_slice_prefix_length by lia.
  pose proof (str_int_length timestamp). cbn [String.length]. lia.
Qed.

Lemma generated_escrow_id_passes_validation_witness :
  let e := Models.mkEscrowData
             (UtilsMore.generate_escrow_id 1700000000 "5d41402abc4b2a76b9719d911017c592")
             None Models.AWAITING_DEPOSIT Models.CRYPTO "" "" "" "" None None None
             0 0 None None None None None None [] None None [] in
  (1 <= String.length "5d41402abc4b2a76b9719d911017c592")%nat /\
  ~ In "Invalid escrow ID" (Utils.validate_escrow_data 0 e).
Proof.
  cbv zeta. split; [vm_compute; lia|].
  apply (generated_escrow_id_passes_validation 0 1700000000 "5d41402abc4b2a76b9719d911017c592");
    [vm_compute; lia | reflexivity].
Defined.

(** ** [format_amount] and [calculate_fees] *)




(** With a negative number of decimals [format_amount] always answers
    "0.0": the format specification is invalid, a [ValueError] that its
    handler catches, even for an amount that parses. *)
Theorem format_amount_negative_decimals (amount : string) (decimals : Z)
  (H : (decimals < 0)%Z) :
  Utils.format_amount amount decimals = inr "0.0".
Proof.
  unfold Utils.format_amount, Utils.float_of_str, Utils.format_f.
  destruct (F64.of_string amount); cbn; [|reflexivity].
  destruct (Z.ltb_spec decimals 0); [reflexivity | lia].
Qed.

Lemma format_amount_negative_decimals_witness :
  Utils.format_amount "1.5" (-1) = inr "0.0".
Proof. apply format_amount_negative_decimals. lia. Defined.



(** The ["total"] of [calculate_fees] is what [format_amount] gives for the
    same amount with its default 18 decimals, whether or not the amount
    parses and whatever the fee percentages. *)
Theorem calculate_fees_total_is_format_amount (amount : string)
  (platform_fee_percentage arbiter_fee_percentage : F64.float) :
  exists out t,
    Utils.calculate_fees amount platform_fee_percentage arbiter_fee_percentage = inr out
    /\ Utils.format_amount amount 18 = inr t
    /\ Py.dict_get out "total" Py.VNone = Py.VStr t.
Proof.
  unfold Utils.calculate_fees, Utils.format_amount, Utils.float_of_str.
  destruct (F64.of_string amount) as [x|]; cbn; do 2 eexists; repeat split.
Qed.

Lemma zero_percent_rate : F64.div (S754_zero false) Utils.hundred = S754_zero false.
Proof. vm_compute. reflexivity. Qed.

(** With both percentages [0.0], [calculate_fees] on an amount that parses
    to a finite non-zero double gives a net amount equal to the total, and
    two zero fees carrying the amount's sign. *)
Theorem calculate_fees_zero_percentages (amount : string) (s : bool) (m : positive) (e : Z)
  (H : F64.of_string amount = Some (S754_finite s m e)) :
  Utils.calculate_fees amount (S754_zero false) (S754_zero false) =
    inr [("total", Py.VStr (F64.format_fixed 18 (S754_finite s m e)));
         ("platform_fee", Py.VStr (F64.format_fixed 18 (S754_zero s)));
         ("arbiter_fee", Py.VStr (F64.format_fixed 18 (S754_zero s)));
         ("net_amount", Py.VStr (F64.format_fixed 18 (S754_finite s m e)))].
Proof.
  unfold Utils.calculate_fees, Utils.float_of_str. rewrite H, zero_percent_rate.
  unfold F64.mul, F64.sub. cbn. rewrite xorb_false_r. reflexivity.
Qed.

Lemma calculate_fees_zero_percentages_witness :
  F64.of_string "7.25" = Some (S754_finite false 8162774324609024 (-50)) /\
  Utils.calculate_fees "7.25" (S754_zero false) (S754_zero false) =
    inr [("total", Py.VStr "7.250000000000000000");
         ("platform_fee", Py.VStr "0.000000000000000000");
         ("arbiter_fee", Py.VStr "0.000000000000000000");
         ("net_amount", Py.VStr "7.250000000000000000")].
Proof.
  split; [vm_compute; reflexivity|].
  rewrite (calculate_fees_zero_percentages "7.25" false 8162774324609024 (-50)) by (vm_compute; reflexivity).
  vm_compute. reflexivity.
Defined.

(** With both percentages [0.0], an amount that parses to [-0.0] gives a
    total and two fees rendered with a minus sign but a net amount without
    one: [-0.0 - -0.0] is [+0.0] under round-to-nearest. *)
Theorem calculate_fees_negative_zero (amount : string)
  (H : F64.of_string amount = Some (S754_zero true)) :
  Utils.calculate_fees amount (S754_zero false) (S754_zero false) =
    inr [("total", Py.VStr "-0.000000000000000000");
         ("platform_fee", Py.VStr "-0.000000000000000000");
         ("arbiter_fee", Py.VStr "-0.000000000000000000");
         ("net_amount", Py.VStr "0.000000000000000000")].
Proof.
  unfold Utils.calculate_fees, Utils.float_of_str. rewrite H, zero_percent_rate.
  vm_compute. reflexivity.
Qed.

Lemma calculate_fees_negative_zero_witness :
  F64.of_string " -0.0 " = Some (S754_zero true) /\
  Utils.calculate_fees " -0.0 " (S754_zero false) (S754_zero false) =
    inr [("total", Py.VStr "-0.000000000000000000");
         ("platform_fee", Py.VStr "-0.000000000000000000");
         ("arbiter_fee", Py.VStr "-0.000000000000000000");
         ("net_amount", Py.VStr "0.000000000000000000")].
Proof.
  split; [vm_compute; reflexivity|].
  apply calculate_fees_negative_zero. vm_compute. reflexivity.
Defined.

(** ** The arbiter's analysis and the oracle's verification *)

(** [analyze_dispute] raises exactly when the evidence it is given has no
    length: [None], a boolean or a number. A missing key counts as the
    empty list; a string or a dict is accepted and counted by its length. *)
Theorem analyze_dispute_raises_iff (dispute_data : Py.dict) :
  (exists err, Arbiter.analyze_dispute dispute_data = inl err) <->
  match Py.dict_get dispute_data "evidence" (Py.VList []) with
  | Py.VNone | Py.VBool _ | Py.VInt _ | Py.VFloat _ => True
  | _ => False
  end.
Proof.
  unfold Arbiter.analyze_dispute.
  destruct (Py.dict_get dispute_data "evidence" (Py.VList [])) as [| | | | s | l | d];
  cbn [Py.bind Py.py_len Py.ret Py.raise];
  try (split; [intros _; exact I | intros _; eexists; reflexivity]);
  (split; [intros [err E] | intros []]);
  repeat match type of E with
         | context [if ?b then _ else _] => destruct b
         end; discriminate E.
Qed.

Lemma analyze_dispute_raises_iff_witness :
  (exists err, Arbiter.analyze_dispute [("evidence", Py.VInt 3)] = inl err) /\
  ~ (exists err, Arbiter.analyze_dispute [("evidence", Py.VStr "abc")] = inl err).
Proof.
  split.
  - apply analyze_dispute_raises_iff. exact I.
  - rewrite analyze_dispute_raises_iff. cbn. exact (fun x => x).
Defined.

(** Whenever [analyze_dispute] answers, its dict has the seven keys of the
    initial analysis in their original order, echoes the dispute id, the
    two parties and the evidence it was given, and always lists the same
    three required pieces of evidence, whatever the evidence count. *)
Theorem analyze_dispute_shape (dispute_data analysis : Py.dict)
  (H : Arbiter.analyze_dispute dispute_data = inr analysis) :
  map fst analysis = ["dispute_id"; "parties"; "evidence"; "recommendation";
                      "confidence"; "reasoning"; "required_evidence"]
  /\ Py.dict_get analysis "dispute_id" Py.VNone = Py.dict_get dispute_data "dispute_id" Py.VNone
  /\ Py.dict_get analysis "parties" Py.VNone =
       Py.VDict [("buyer", Py.dict_get dispute_data "buyer_address" Py.VNone);
                 ("seller", Py.dict_get dispute_data "seller_address" Py.VNone)]
  /\ Py.dict_get analysis "evidence" Py.VNone = Py.dict_get dispute_data "evidence" (Py.VList [])
  /\ Py.dict_get analysis "required_evidence" Py.VNone =
       Py.VList [Py.VStr "Transaction proof"; Py.VStr "Communication logs";
                 Py.VStr "Delivery confirmation"].
Proof.
  unfold Arbiter.analyze_dispute in H.
  destruct (Py.py_len (Py.dict_get dispute_data "evidence" (Py.VList []))) as [err|n];
  cbn [Py.bind] in H; [discriminate H|].
  destruct (3 <=? n)%nat; [|destruct (1 <=? n)%nat];
  injection H as <-; cbn; repeat split.
Qed.

Lemma analyze_dispute_shape_witness :
  let d := [("dispute_id", Py.VStr "dispute_1"); ("evidence", Py.VStr "abcd")] in
  exists a, Arbiter.analyze_dispute d = inr a /\
    map fst a = ["dispute_id"; "parties"; "evidence"; "recommendation";
                 "confidence"; "reasoning"; "required_evidence"]
    /\ Py.dict_get a "evidence" Py.VNone = Py.VStr "abcd".
Proof.
  cbv zeta. eexists. split; [reflexivity|].
  edestruct (analyze_dispute_shape [("dispute_id", Py.VStr "dispute_1"); ("evidence", Py.VStr "abcd")])
    as (K & _ & _ & Ev & _); [reflexivity|].
  split; [exact K | exact Ev].
Defined.

(** Without a usable key ([None] or the empty string) the oracle answers
    the "AI service not configured" failure for every transaction, without
    posting any request: the result does not depend on [requests.post],
    [json.loads] or the prompt rendering. *)
Theorem verify_unconfigured (key : option string) requests_post json_loads py_str
  (transaction_data : Py.dict)
  (H : Oracle.key_missing key = true) :
  Oracle.verify_transaction_with_ai key requests_post json_loads py_str transaction_data
  = inr (Oracle.failure "AI service not configured").
Proof.
  unfold Oracle.key_missing in H. unfold Oracle.verify_transaction_with_ai.
  destruct key as [k|]; [rewrite H|]; reflexivity.
Qed.

Lemma verify_unconfigured_witness :
  Oracle.verify_transaction_with_ai (Some "") (fun _ _ _ => inr (Oracle.mkResponse 200 "{}"))
    (fun _ => None) (fun _ => "") [] = inr (Oracle.failure "AI service not configured").
Proof. apply verify_unconfigured. reflexivity. Defined.



(** When the request succeeds and the AI's message content is a JSON text,
    the oracle returns that decoded JSON as it is: neither its type nor a
    [verified] or [confidence] field is checked. *)
Theorem verify_returns_ai_json (k : string) requests_post json_loads py_str
  (transaction_data : Py.dict) (resp : Oracle.response) (result : Py.value)
  (s : string) (v : Py.value)
  (Hk : k <> "")
  (Hp : requests_post Oracle.ASI_ONE_URL (Oracle.headers k)
          (Oracle.request_body py_str transaction_data) = inr resp)
  (Hs : (Oracle.status_code resp < 400)%Z)
  (Hr : json_loads (Oracle.text resp) = Some result)
  (Hc : Oracle.ai_content result = inr (Py.VStr s))
  (Hv : json_loads s = Some v) :
  Oracle.verify_transaction_with_ai (Some k) requests_post json_loads py_str transaction_data
  = inr v.
Proof.
  unfold Oracle.verify_transaction_with_ai.
  assert (Py.str_empty k = false) as ->.
  { unfold Py.str_empty. apply String.eqb_neq. exact Hk. }
  rewrite Hp. cbn [Py.try_except Py.bind]. unfold Oracle.raise_for_status.
  destruct (Z.leb_spec 400 (Oracle.status_code resp)); [lia|]. cbn [andb Py.ret Py.bind].
  unfold Oracle.response_json. rewrite Hr. cbn [Py.ret Py.bind].
  rewrite Hc. cbn [Py.bind Oracle.loads]. rewrite Hv. reflexivity.
Qed.

Lemma verify_returns_ai_json_witness :
  let loads := fun s : string =>
    if String.eqb s "BODY" then
      Some (Py.VDict [("choices", Py.VList [Py.VDict [("message",
              Py.VDict [("content", Py.VStr "ANSWER")])]])])
    else if String.eqb s "ANSWER" then
      Some (Py.VDict [("verified", Py.VBool true); ("confidence", Py.VInt 0)])
    else None in
  Oracle.verify_transaction_with_ai (Some "k") (fun _ _ _ => inr (Oracle.mkResponse 200 "BODY"))
    loads (fun _ => "") []
  = inr (Py.VDict [("verified", Py.VBool true); ("confidence", Py.VInt 0)]).
Proof.
  cbv zeta.
  apply (verify_returns_ai_json "k" _ _ _ [] (Oracle.mkResponse 200 "BODY")
           (Py.VDict [("choices", Py.VList [Py.VDict [("message",
              Py.VDict [("content", Py.VStr "ANSWER")])]])]) "ANSWER");
    cbn; first [discriminate | reflexivity | lia].
Defined.

(** When the request succeeds but the AI's message content is a string that
    is not JSON, the oracle answers the "Failed to parse AI response"
    failure. *)
Theorem verify_unparsable_ai_content (k : string) requests_post json_loads py_str
  (transaction_data : Py.dict) (resp : Oracle.response) (result : Py.value) (s : string)
  (Hk : k <> "")
  (Hp : requests_post Oracle.ASI_ONE_URL (Oracle.headers k)
          (Oracle.request_body py_str transaction_data) = inr resp)
  (Hs : (Oracle.status_code resp < 400)%Z)
  (Hr : json_loads (Oracle.text resp) = Some result)
  (Hc : Oracle.ai_content result = inr (Py.VStr s))
  (Hv : json_loads s = None) :
  Oracle.verify_transaction_with_ai (Some k) requests_post json_loads py_str transaction_data
  = inr (Oracle.failure "Failed to parse AI response").
Proof.
  unfold Oracle.verify_transaction_with_ai.
  assert (Py.str_empty k = false) as ->.
  { unfold Py.str_empty. apply String.eqb_neq. exact Hk. }
  rewrite Hp. cbn [Py.try_except Py.bind]. unfold Oracle.raise_for_status.
  destruct (Z.leb_spec 400 (Oracle.status_code resp)); [lia|]. cbn [andb Py.ret Py.bind].
  unfold Oracle.response_json. rewrite Hr. cbn [Py.ret Py.bind].
  rewrite Hc. cbn [Py.bind Oracle.loads]. rewrite Hv. reflexivity.
Qed.

Lemma verify_unparsable_ai_content_witness :
  let loads := fun s : string =>
    if String.eqb s "BODY" then
      Some (Py.VDict [("choices", Py.VList [Py.VDict [("message",
              Py.VDict [("content", Py.VStr "not json")])]])])
    else None in
  Oracle.verify_transaction_with_ai (Some "k") (fun _ _ _ => inr (Oracle.mkResponse 200 "BODY"))
    loads (fun _ => "") []
  = inr (Oracle.failure "Failed to parse AI response").
Proof.
  cbv zeta.
  apply (verify_unparsable_ai_content "k" _ _ _ [] (Oracle.mkResponse 200 "BODY")
           (Py.VDict [("choices", Py.VList [Py.VDict [("message",
              Py.VDict [("content", Py.VStr "not json")])]])]) "not json");
    cbn; first [discriminate | reflexivity | lia].
Defined.

(** ** Keyword routing *)

Lemma prefix_app (n s t : string) :
  String.prefix n s = true -> String.prefix n (s ++ t) = true.
Proof.
  revert s. induction n as [|c n IH]; intros s H; [destruct (s ++ t); reflexivity|].
  destruct s as [|c' s]; [discriminate H|]. simpl in *.
  destruct (ascii_dec c c'); [apply IH; exact H | discriminate H].
Qed.

Lemma contains_app_l (n s t : string) :
  Routing.contains n s = true -> Routing.contains n (t ++ s) = true.
Proof.
  intros H. induction t as [|c t IH]; [exact H|].
  simpl. rewrite IH. apply orb_true_r.
Qed.

Lemma contains_app_r (n s t : string) :
  Routing.contains n s = true -> Routing.contains n (s ++ t) = true.
Proof.
  induction s as [|c s IH]; intros H.
  - simpl in H. destruct n; [|discriminate H].
    destruct t; reflexivity.
  - simpl in H |- *. apply orb_true_iff in H as [H|H].
    + apply orb_true_iff. left. exact (prefix_app n (String c s) t H).
    + rewrite (IH H). apply orb_true_r.
Qed.

Lemma contains_infix (n a b c : string) :
  Routing.contains n b = true -> Routing.contains n (a ++ b ++ c) = true.
Proof. intros H. apply contains_app_l, contains_app_r, H. Qed.

Lemma str_lower_app (a b : string) :
  Routing.str_lower (a ++ b) = Routing.str_lower a ++ Routing.str_lower b.
Proof.
  induction a as [|c a IH]; [reflexivity|].
  unfold Routing.str_lower in *. simpl. rewrite IH. reflexivity.
Qed.

Ltac route_mono x y z :=
  let a := fresh "a" in let b := fresh "b" in let c := fresh "c" in
  let M := fresh "M" in
  rewrite !str_lower_app;
  generalize (Routing.str_lower z) as c; generalize (Routing.str_lower y) as b;
  generalize (Routing.str_lower x) as a; intros a b c;
  assert (M := fun n => contains_infix n a b c);
  repeat match goal with
  | |- context [Routing.contains ?n b] =>
      let E := fresh "E" in
      destruct (Routing.contains n b) eqn:E;
      [rewrite (M n E) | ]
  end;
  cbn [orb];
  repeat match goal with
  | |- context [Routing.contains ?n ?s] => destruct (Routing.contains n s)
  end; cbn; lia.

(** Adding text before or after an arbiter request never routes it to a
    later branch: whichever keyword a request contains keeps working in any
    longer message, and "analyze" or "review" wins over every other
    keyword. *)
Theorem arbiter_routing_monotone (before request after : string) :
  (Routing.arbiter_priority (Routing.handle_arbiter_request (before ++ request ++ after))
   <= Routing.arbiter_priority (Routing.handle_arbiter_request request))%nat.
Proof. unfold Routing.handle_arbiter_request. route_mono before request after. Qed.

(** The same for the oracle's router: "verify" or "check" anywhere in a
    message wins over "status" and "help". *)
Theorem oracle_routing_monotone (before request after : string) :
  (Routing.oracle_priority (Routing.handle_oracle_request (before ++ request ++ after))
   <= Routing.oracle_priority (Routing.handle_oracle_request request))%nat.
Proof. unfold Routing.handle_oracle_request. route_mono before request after. Qed.

Lemma lower_idem (c : ascii) : F64.lower (F64.lower c) = F64.lower c.
Proof. destruct c as [[] [] [] [] [] [] [] []]; reflexivity. Qed.

Lemma str_lower_idem (s : string) : Routing.str_lower (Routing.str_lower s) = Routing.str_lower s.
Proof.
  induction s as [|c s IH]; [reflexivity|].
  unfold Routing.str_lower in *. simpl. rewrite lower_idem, IH. reflexivity.
Qed.

(** Both routers ignore letter case: a request and its lower-cased form are
    routed to the same handler. *)
Theorem routing_case_insensitive (request : string) :
  Routing.handle_arbiter_request (Routing.str_lower request)
    = Routing.handle_arbiter_request request
  /\ Routing.handle_oracle_request (Routing.str_lower request)
    = Routing.handle_oracle_request request.
Proof.
  unfold Routing.handle_arbiter_request, Routing.handle_oracle_request.
  rewrite str_lower_idem. split; reflexivity.
Qed.

(** ** Message content extraction *)

Lemma extract_text_content_app (c1 c2 : list Py.dict) :
  UtilsMore.extract_text_content (c1 ++ c2)%list
  = (UtilsMore.extract_text_content c1 ++ UtilsMore.extract_text_content c2)%list.
Proof.
  induction c1 as [|item r IH]; [reflexivity|]. simpl.
  destruct (UtilsMore.str_is _ _); rewrite IH; reflexivity.
Qed.

(** Text items made by [create_text_content] are read back by
    [extract_text_content] in their order, between the texts of the
    surrounding content. *)
Theorem extract_text_content_roundtrip (c1 c2 : list Py.dict) (texts : list string) :
  UtilsMore.extract_text_content (c1 ++ map UtilsMore.create_text_content texts ++ c2)%list
  = (UtilsMore.extract_text_content c1 ++ map Py.VStr texts
     ++ UtilsMore.extract_text_content c2)%list.
Proof.
  rewrite !extract_text_content_app. f_equal. f_equal.
  induction texts as [|t ts IH]; [reflexivity|]. simpl. rewrite IH. reflexivity.
Qed.

(** [extract_escrow_data] returns the summary that [create_escrow_content]
    put in the first item typed "escrow_data", whatever follows it. *)
Theorem extract_escrow_data_first (pre post : list Py.dict) (e : Models.EscrowData)
  (H : forall item, In item pre ->
         UtilsMore.str_is (Py.dict_get item "type" Py.VNone) "escrow_data" = false) :
  UtilsMore.extract_escrow_data (pre ++ UtilsMore.create_escrow_content e :: post)%list
  = Py.VDict (UtilsMore.escrow_summary e).
Proof.
  induction pre as [|item r IH]; [reflexivity|]. simpl.
  rewrite (H item (or_introl eq_refl)). apply IH. intros i Hi. apply H. right. exact Hi.
Qed.

Lemma extract_escrow_data_first_witness :
  UtilsMore.extract_escrow_data
    ([UtilsMore.create_text_content "hello"; UtilsMore.create_metadata_content []]
     ++ UtilsMore.create_escrow_content SpecSide.sample_escrow :: [])%list
  = Py.VDict (UtilsMore.escrow_summary SpecSide.sample_escrow).
Proof.
  apply extract_escrow_data_first. intros item Hi.
  simpl in Hi. destruct Hi as [<-|[<-|[]]]; reflexivity.
Defined.

(** [extract_metadata] returns the dict that [create_metadata_content] put
    in the first item typed "metadata", whatever follows it. *)
Theorem extract_metadata_first (pre post : list Py.dict) (m : Py.dict)
  (H : forall item, In item pre ->
         UtilsMore.str_is (Py.dict_get item "type" Py.VNone) "metadata" = false) :
  UtilsMore.extract_metadata (pre ++ UtilsMore.create_metadata_content m :: post)%list
  = Py.VDict m.
Proof.
  induction pre as [|item r IH]; [reflexivity|]. simpl.
  rewrite (H item (or_introl eq_refl)). apply IH. intros i Hi. apply H. right. exact Hi.
Qed.

Lemma extract_metadata_first_witness :
  UtilsMore.extract_metadata
    ([UtilsMore.create_text_content "hello"]
     ++ UtilsMore.create_metadata_content [("k", Py.VInt 1)]
     :: [UtilsMore.create_metadata_content []])%list
  = Py.VDict [("k", Py.VInt 1)].
Proof.
  apply extract_metadata_first. intros item Hi.
  simpl in Hi. destruct Hi as [<-|[]]; reflexivity.
Defined.

(** ** Error and success messages *)

(** [create_error_message] adds a ["details"] entry exactly when details
    are given and non-empty, and then holds them unchanged. *)
Theorem create_error_message_details (error : string) (details : option string) :
  (Py.dict_mem "details" (UtilsMore.create_error_message error details) = true
   <-> exists d, details = Some d /\ d <> "")
  /\ forall d, details = Some d -> d <> "" ->
       Py.dict_get (UtilsMore.create_error_message error details) "details" Py.VNone = Py.VStr d.
Proof.
  unfold UtilsMore.create_error_message.
  split.
  - destruct details as [d|].
    + destruct (Py.str_empty d) eqn:E; unfold Py.str_empty in E.
      * apply String.eqb_eq in E. subst d. split; [discriminate | intros [d [Hd N]]].
        injection Hd as <-. contradiction.
      * apply String.eqb_neq in E. split; [intros _; eauto | reflexivity].
    + split; [discriminate | intros [d [Hd _]]; discriminate Hd].
  - intros d -> N. unfold Py.str_empty.
    destruct (String.eqb_spec d ""); [contradiction | reflexivity].
Qed.

(** [create_success_message] adds a ["data"] entry exactly when data is
    given and non-empty, and then holds it unchanged. *)
Theorem create_success_message_data (message : string) (data : option Py.dict) :
  (Py.dict_mem "data" (UtilsMore.create_success_message message data) = true
   <-> exists d, data = Some d /\ d <> [])
  /\ forall d, data = Some d -> d <> [] ->
       Py.dict_get (UtilsMore.create_success_message message data) "data" Py.VNone = Py.VDict d.
Proof.
  unfold UtilsMore.create_success_message.
  split.
  - destruct data as [[|kv d]|].
    + split; [discriminate | intros [d [Hd N]]; injection Hd as <-; contradiction].
    + split; [intros _; eexists; split; [reflexivity | discriminate] | reflexivity].
    + split; [discriminate | intros [d [Hd _]]; discriminate Hd].
  - intros [|kv d] -> N; [contradiction | reflexivity].
Qed.
